(** * Adaptive form-filling control loop of [agent_deploy/llm_apply_o1_login.py]

    A shallow embedding of the retry / fallback machinery of the job
    application script: the field locator, the text input with read-back
    verification, the login flow, the custom dropdown fallback chain, the
    resume upload, the iterative fill loop and the application run around
    them.

    Conventions of the embedding.
    - A Python [str] is a [string] whose characters are the code points
      U+0000 .. U+00FF.
    - The browser, the agent and the file system are an oracle
      [env : nat -> action -> response]: the answer to the [n]-th request
      of a run.  Every request is recorded, with the source line of the
      call and the answer received.
    - The collaborators are dynamically typed: an answer of a type the
      Python code cannot use raises, as [AttributeError] or [TypeError]
      would.  An exception is its message, [str(e)].
    - [asyncio.sleep] only passes time and is a no-op. *)

From Stdlib Require Import Bool Arith List Lia ZArith Ascii String DecimalString.
Import ListNotations.

Local Open Scope list_scope.
Local Open Scope string_scope.

(** ** Python string operations *)

Module PyStr.

(** [str.isspace] on a single code point below 256
    (the table behind [str.strip()] without arguments). *)
Definition is_space (c : ascii) : bool :=
  let n := nat_of_ascii c in
  (((9 <=? n) && (n <=? 13)) || ((28 <=? n) && (n <=? 32))
   || (n =? 133) || (n =? 160))%nat.

(** [str.lower] on a single code point below 256. *)
Definition lower_char (c : ascii) : ascii :=
  let n := nat_of_ascii c in
  if (((65 <=? n) && (n <=? 90))
      || ((192 <=? n) && (n <=? 222) && negb (n =? 215)))%nat
  then ascii_of_nat (n + 32) else c.

Fixpoint lower (s : string) : string :=
  match s with
  | EmptyString => EmptyString
  | String c s' => String (lower_char c) (lower s')
  end.

Fixpoint lstrip (s : string) : string :=
  match s with
  | EmptyString => EmptyString
  | String c s' => if is_space c then lstrip s' else s
  end.

Fixpoint rstrip (s : string) : string :=
  match s with
  | EmptyString => EmptyString
  | String c s' =>
      match rstrip s' with
      | EmptyString => if is_space c then EmptyString else String c EmptyString
      | r => String c r
      end
  end.

(** [s.strip()] *)
Definition strip (s : string) : string := rstrip (lstrip s).

(** [needle in hay] *)
Fixpoint contains (needle hay : string) : bool :=
  String.prefix needle hay ||
  match hay with
  | EmptyString => false
  | String _ hay' => contains needle hay'
  end.

(** [s[:n]] *)
Definition slice_to (n : nat) (s : string) : string := String.substring 0 n s.

(** [not s] is false exactly for the non-empty strings. *)
Definition truthy (s : string) : bool :=
  match s with EmptyString => false | _ => true end.

(** [str(i)] / [f"{i}"] for an [int]. *)
Definition of_Z (z : Z) : string := NilZero.string_of_int (Z.to_int z).

Definition of_nat (n : nat) : string := of_Z (Z.of_nat n).

(** The double quote character. *)
Definition dquote : string := String (ascii_of_nat 34) EmptyString.

Definition hex_digit (n : nat) : ascii :=
  ascii_of_nat (if n <? 10 then 48 + n else 87 + n)%nat.

(** [repr] of one character inside quotes [q]. *)
Definition repr_char (q : ascii) (c : ascii) : string :=
  let n := nat_of_ascii c in
  if (Ascii.eqb c q || (n =? 92))%nat then String (ascii_of_nat 92) (String c EmptyString)
  else if (n =? 9)%nat then "\t"
  else if (n =? 10)%nat then "\n"
  else if (n =? 13)%nat then "\r"
  else if ((n <? 32) || ((127 <=? n) && (n <=? 160)) || (n =? 173))%nat
  then String (ascii_of_nat 92)
         (String "x" (String (hex_digit (n / 16)) (String (hex_digit (n mod 16)) EmptyString)))
  else String c EmptyString.

Fixpoint has_char (q : ascii) (s : string) : bool :=
  match s with
  | EmptyString => false
  | String c s' => Ascii.eqb c q || has_char q s'
  end.

Fixpoint repr_body (q : ascii) (s : string) : string :=
  match s with
  | EmptyString => EmptyString
  | String c s' => repr_char q c ++ repr_body q s'
  end.

(** [repr(s)] for a [str]. *)
Definition repr (s : string) : string :=
  let q := if has_char "'" s && negb (has_char (ascii_of_nat 34) s)
           then ascii_of_nat 34 else "'"%char in
  String q (repr_body q s ++ String q EmptyString).

Fixpoint join (sep : string) (l : list string) : string :=
  match l with
  | [] => EmptyString
  | [x] => x
  | x :: l' => x ++ sep ++ join sep l'
  end.

(** [str(l)] for a list of [str]. *)
Definition repr_list (l : list string) : string :=
  "[" ++ join ", " (map repr l) ++ "]".

End PyStr.

(** ** Data model *)

(** A [DOMElementNode] of the selector map: its [xpath] and the text that
    [get_all_text_till_next_clickable_element(max_depth=0)] returns for it. *)
Record DomElement := mkDomElement {
  xpath : string;
  all_text : string
}.

(** [selector_map]: a Python dict from highlight index to element, in
    insertion (document) order. *)
Definition SelectorMap := list (Z * DomElement).

Fixpoint dict_get {V : Type} (k : Z) (d : list (Z * V)) : option V :=
  match d with
  | [] => None
  | (k', v) :: d' => if Z.eqb k k' then Some v else dict_get k d'
  end.

(** One entry of ["unfilled_fields"]: [field_info["id"]],
    [field_info["type"]] and [field_info.get("label", ...)].  Entries are
    taken at the shape the loop reads: an object with a string [id], a
    string [type] and an optional string [label]. *)
Record RequiredField := mkField {
  field_id : string;
  field_type : string;
  field_label : option string
}.

(** A parsed JSON document: the two objects the module reads, or a
    document that is not an object (a list, a string, a number, ...),
    given by its Python type name. *)
Inductive json :=
| JCredentials (username password : string)
| JUnfilled (unfilled_fields : option (list RequiredField))
| JOther (type_name : string).

(** A [str] payload: [JsonText j] is the text [json.dumps] gives for [j];
    [Plain s] is a string that [json.loads] rejects. *)
Inductive content :=
| Plain (s : string)
| JsonText (j : json).

Record ActionResult := mkResult {
  error : option string;
  extracted_content : option content;
  include_in_memory : bool
}.

(** [ActionResult(error=msg)] *)
Definition result_error (msg : string) : ActionResult :=
  mkResult (Some msg) None false.

(** [ActionResult(extracted_content=msg, include_in_memory=True)] *)
Definition result_content (msg : string) : ActionResult :=
  mkResult None (Some (Plain msg)) true.


(** Values the collaborators hand back. *)
Inductive pyval :=
| PNone
| PBool (b : bool)
| PInt (z : Z)
| PStr (s : string)
| PObject                         (* an element handle *)
| PPage (url : string)            (* a page, with its [url] *)
| PHandles (n : nat)              (* a list of [n] element handles *)
| PSelectorMap (m : SelectorMap)
| PState (m : SelectorMap)        (* a browser state, with its [selector_map] *)
| PResult (r : ActionResult).

(** Python truth value. *)
Definition truthy (v : pyval) : bool :=
  match v with
  | PNone => false
  | PBool b => b
  | PInt z => negb (Z.eqb z 0)
  | PStr s => PyStr.truthy s
  | PHandles n => negb (Nat.eqb n 0)
  | PSelectorMap m => match m with [] => false | _ => true end
  | PObject | PPage _ | PState _ | PResult _ => true
  end.

Definition type_name (v : pyval) : string :=
  match v with
  | PNone => "NoneType"
  | PBool _ => "bool"
  | PInt _ => "int"
  | PStr _ => "str"
  | PObject => "ElementHandle"
  | PPage _ => "Page"
  | PHandles _ => "list"
  | PSelectorMap _ => "dict"
  | PState _ => "BrowserState"
  | PResult _ => "ActionResult"
  end.

(** Requests to the collaborators. *)
Inductive script := ScrollIntoViewJs | CheckCurrentOptionJs | ScrollAndFindJs.

Inductive action :=
| GetCurrentPage
| GetSelectorMap
| GetState
| GetLocateElement (el : DomElement)
| ElementEvaluate (js : string)
| ElementType (text : string)
| ElementClick
| ElementSetInputFiles (path : string)
| PageEvaluate (js : script) (arg : option string)
| KeyboardPress (key : string)
| PageWaitForSelector (selector : string)
| OptionClick
| PageGoto (url : string)
| PageWaitForLoadState
| PageFill (selector value : string)
| PageClick (selector : string)
| PageQuerySelectorAll (selector : string)
| InputSetInputFiles (i : nat) (path : string)
| PathResolve (path : string)
| PathIsFile (path : string)
| ExecuteAction (name : string) (params : list (string * pyval)).

Inductive response :=
| Ret (v : pyval)
| Raise (msg : string).

(** One recorded request: the source line of the call, the request and the
    answer. *)
Record event := mkEvent {
  ev_line : nat;
  ev_action : action;
  ev_response : response
}.

Definition Env := nat -> action -> response.

(** ** The effect monad: oracle, request counter, exceptions, trace, log *)

Inductive result (A : Type) :=
| Val (a : A)
| Exc (msg : string).
Arguments Val {A} a.
Arguments Exc {A} msg.

Record Out (A : Type) := mkOut {
  res : result A;
  events : list event;
  logs : list string
}.
Arguments mkOut {A}.
Arguments res {A}.
Arguments events {A}.
Arguments logs {A}.

Definition M (A : Type) := Env -> nat -> Out A.

Definition ret {A} (a : A) : M A := fun _ _ => mkOut (Val a) [] [].

Definition raise {A} (msg : string) : M A := fun _ _ => mkOut (Exc msg) [] [].

Definition bind {A B} (m : M A) (f : A -> M B) : M B :=
  fun env n =>
    match m env n with
    | mkOut (Val a) evs lg =>
        match f a env (n + List.length evs) with
        | mkOut r evs' lg' => mkOut r (evs ++ evs') (lg ++ lg')
        end
    | mkOut (Exc e) evs lg => mkOut (Exc e) evs lg
    end.

(** [try: m  except Exception as e: h e] *)
Definition try_except {A} (m : M A) (h : string -> M A) : M A :=
  fun env n =>
    match m env n with
    | mkOut (Val a) evs lg => mkOut (Val a) evs lg
    | mkOut (Exc e) evs lg =>
        match h e env (n + List.length evs) with
        | mkOut r evs' lg' => mkOut r (evs ++ evs') (lg ++ lg')
        end
    end.

(** An awaited call on a collaborator, made at source line [line]. *)
Definition call (line : nat) (a : action) : M pyval :=
  fun env n =>
    let r := env n a in
    mkOut (match r with Ret v => Val v | Raise msg => Exc msg end)
          [mkEvent line a r] [].

(** [logger.info(msg)] *)
Definition logger_info (msg : string) : M unit :=
  fun _ _ => mkOut (Val tt) [] [msg].

(** [logger.debug(msg)]: dropped, the module logs at level INFO. *)
Definition logger_debug (msg : string) : M unit := ret tt.

(** [await asyncio.sleep(ms / 1000)] *)
Definition sleep (ms : nat) : M unit := ret tt.

Declare Scope monad_scope.
Delimit Scope monad_scope with monad.
Notation "x <- m ;; k" := (bind m (fun x => k))
  (at level 61, m at next level, right associativity) : monad_scope.
Notation "m ;;; k" := (bind m (fun _ => k))
  (at level 61, right associativity) : monad_scope.
Local Open Scope monad_scope.

(** [for x in xs: body x], where the body may [return] from the enclosing
    function ([Some r]) or fall through to the next element ([None]). *)
Fixpoint for_each {A R : Type} (xs : list A) (body : A -> M (option R))
  : M (option R) :=
  match xs with
  | [] => ret None
  | x :: xs' =>
      r <- body x ;;
      match r with
      | Some v => ret (Some v)
      | None => for_each xs' body
      end
  end.

(** [range(n)] *)
Definition range (n : Z) : list Z := map Z.of_nat (seq 0 (Z.to_nat n)).

(** Run from the first request of a session. *)
Definition run {A} (m : M A) (env : Env) : Out A := m env 0.

(** Attribute and type errors of dynamically typed answers. *)
Definition attribute_error {A} (v : pyval) (attr : string) : M A :=
  raise ("'" ++ type_name v ++ "' object has no attribute '" ++ attr ++ "'").

Definition as_selector_map (v : pyval) : M SelectorMap :=
  match v with
  | PSelectorMap m => ret m
  | _ => raise ("'" ++ type_name v ++ "' object is not a selector map")
  end.

(** [v.strip()] *)
Definition py_strip (v : pyval) : M string :=
  match v with
  | PStr s => ret (PyStr.strip s)
  | _ => attribute_error v "strip"
  end.

(** [v.lower()] *)
Definition py_lower (v : pyval) : M string :=
  match v with
  | PStr s => ret (PyStr.lower s)
  | _ => attribute_error v "lower"
  end.

(** ** Text input with read-back verification (lines 262-321) *)

(** One iteration of [for attempt in range(max_retries)]. *)
Definition input_attempt (index : Z) (text : string) (max_retries : Z)
    (dom_element : DomElement) (attempt : Z) : M (option ActionResult) :=
  try_except
    (element <- call 286 (GetLocateElement dom_element) ;;
     if negb (truthy element) then
       if Z.eqb attempt (max_retries - 1) then
         let msg := "Could not locate text field at index " ++ PyStr.of_Z index in
         logger_info msg ;;;
         ret (Some (result_error msg))
       else
         sleep 1000 ;;;
         ret None
     else
       _ <- call 297 (ElementEvaluate "el => el.value = ''") ;;
       sleep 200 ;;;
       _ <- call 301 (ElementType text) ;;
       sleep 200 ;;;
       typed_value <- call 305 (ElementEvaluate "el => el.value") ;;
       typed <- py_strip typed_value ;;
       if String.eqb typed (PyStr.strip text) then
         let msg := "Successfully input '" ++ text ++ "' into field "
                    ++ PyStr.of_Z index in
         logger_info msg ;;;
         ret (Some (result_content msg))
       else
         logger_info ("Verification mismatch. Attempt "
                      ++ PyStr.of_Z (attempt + 1) ++ "/"
                      ++ PyStr.of_Z max_retries ++ " for index "
                      ++ PyStr.of_Z index) ;;;
         sleep 1000 ;;;
         ret None)
    (fun e =>
       logger_info ("Failed attempt " ++ PyStr.of_Z (attempt + 1) ++ "/"
                    ++ PyStr.of_Z max_retries ++ " on index "
                    ++ PyStr.of_Z index ++ ": " ++ e) ;;;
       if Z.eqb attempt (max_retries - 1) then
         ret (Some (result_error e))
       else
         sleep 1000 ;;;
         ret None).

Definition input_text_with_retry (index : Z) (text : string)
    (max_retries : Z) : M ActionResult :=
  page <- call 273 GetCurrentPage ;;
  selector_map <- call 274 GetSelectorMap ;;
  selector_map <- as_selector_map selector_map ;;
  match dict_get index selector_map with
  | None =>
      let msg := "No element found at index " ++ PyStr.of_Z index in
      logger_info msg ;;;
      ret (result_error msg)
  | Some dom_element =>
      r <- for_each (range max_retries)
             (input_attempt index text max_retries dom_element) ;;
      match r with
      | Some result => ret result
      | None =>
          let msg := "Unable to input '" ++ text ++ "' into field "
                     ++ PyStr.of_Z index ++ " after "
                     ++ PyStr.of_Z max_retries ++ " attempts" in
          logger_info msg ;;;
          ret (result_error msg)
      end
  end.

Definition default_max_retries : Z := 3.

(** ** Field locator (lines 712-723) *)

(** The test of line 721 on one element. *)
Definition field_matches (field_id label : string) (dom_el : DomElement)
  : bool :=
  let text_repr := PyStr.lower (all_text dom_el) in
  PyStr.contains (PyStr.lower field_id) (PyStr.lower (xpath dom_el))
  || PyStr.contains (PyStr.lower label) text_repr.

(** [for idx, dom_el in state.selector_map.items(): ... return idx] *)
Fixpoint first_match (field_id label : string) (items : SelectorMap)
  : option Z :=
  match items with
  | [] => None
  | (idx, dom_el) :: items' =>
      if field_matches field_id label dom_el then Some idx
      else first_match field_id label items'
  end.

(** [state.selector_map] *)
Definition state_selector_map (v : pyval) : M SelectorMap :=
  match v with
  | PState m => ret m
  | _ => attribute_error v "selector_map"
  end.

Definition find_highlight_index_for_field (field_id label : string)
  : M (option Z) :=
  state <- call 718 GetState ;;
  selector_map <- state_selector_map state ;;
  ret (first_match field_id label selector_map).

(** ** Login credentials and login flow (lines 118-256) *)

(** One entry of [login_credentials_data]: what [creds.get("username", ...)]
    and [creds.get("password", ...)] find. *)
Record Credentials := mkCredentials {
  cred_username : option string;
  cred_password : option string
}.

(** [login_credentials_data]: a dict keyed by site name, in insertion
    order. *)
Definition CredentialsData := list (string * Credentials).

Fixpoint sdict_get {V : Type} (k : string) (d : list (string * V))
  : option V :=
  match d with
  | [] => None
  | (k', v) :: d' => if String.eqb k k' then Some v else sdict_get k d'
  end.

(** [d[k] = v] *)
Fixpoint sdict_set {V : Type} (k : string) (v : V) (d : list (string * V))
  : list (string * V) :=
  match d with
  | [] => [(k, v)]
  | (k', v') :: d' =>
      if String.eqb k k' then (k', v) :: d' else (k', v') :: sdict_set k v d'
  end.

(** [{k.lower(): v for k, v in login_credentials_data.items()}] *)
Definition credentials_lower (data : CredentialsData) : CredentialsData :=
  fold_left (fun acc kv => sdict_set (PyStr.lower (fst kv)) (snd kv) acc)
            data [].

Definition get_default (o : option string) (d : string) : string :=
  match o with Some s => s | None => d end.

Definition get_site_login_credentials (data : CredentialsData)
    (site_name : string) : M ActionResult :=
  let site_name_lower := PyStr.lower (PyStr.strip site_name) in
  match sdict_get site_name_lower (credentials_lower data) with
  | Some creds =>
      let extracted :=
        JCredentials (get_default (cred_username creds) "")
                     (get_default (cred_password creds) "") in
      ret (mkResult None (Some (JsonText extracted)) false)
  | None =>
      let msg := "No login credentials found for site '" ++ site_name
                 ++ "' (available sites: "
                 ++ PyStr.repr_list (map fst data) ++ ")" in
      logger_info msg ;;;
      ret (result_error msg)
  end.

(** [if r.error:] *)
Definition has_error (r : ActionResult) : bool :=
  match error r with
  | Some msg => PyStr.truthy msg
  | None => false
  end.

(** [json.loads(c)]; [None] when it raises. *)
Definition json_loads (c : option content) : option json :=
  match c with
  | Some (JsonText j) => Some j
  | _ => None
  end.

(** [creds.get("username", "")] and [creds.get("password", "")] on a parsed
    document; only an object has [get]. *)
Definition json_username (j : json) : M string :=
  match j with
  | JCredentials u _ => ret u
  | JUnfilled _ => ret ""
  | JOther t => raise ("'" ++ t ++ "' object has no attribute 'get'")
  end.

Definition json_password (j : json) : M string :=
  match j with
  | JCredentials _ p => ret p
  | JUnfilled _ => ret ""
  | JOther t => raise ("'" ++ t ++ "' object has no attribute 'get'")
  end.

(** [page.url] *)
Definition page_url (v : pyval) : M string :=
  match v with
  | PPage url => ret url
  | _ => attribute_error v "url"
  end.

Definition linkedin_login (page : pyval) (username password : string)
  : M ActionResult :=
  try_except
    (current_url <- page_url page ;;
     (if negb (PyStr.contains "linkedin.com" current_url)
      then _ <- call 196 (PageGoto "https://www.linkedin.com/login") ;; ret tt
      else ret tt) ;;;
     _ <- call 197 PageWaitForLoadState ;;
     let username_sel := "input#username" in
     let password_sel := "input#password" in
     let sign_in_btn_sel :=
       "button[type=" ++ PyStr.dquote ++ "submit" ++ PyStr.dquote ++ "]" in
     _ <- call 204 (PageFill username_sel username) ;;
     sleep 500 ;;;
     _ <- call 206 (PageFill password_sel password) ;;
     sleep 500 ;;;
     _ <- call 208 (PageClick sign_in_btn_sel) ;;
     logger_info "Clicked sign in on LinkedIn." ;;;
     sleep 3000 ;;;
     let msg := "Login attempt complete for LinkedIn user " ++ username in
     logger_info msg ;;;
     ret (result_content msg))
    (fun e =>
       let msg := "Failed LinkedIn login flow: " ++ e in
       logger_info msg ;;;
       ret (result_error msg)).

Definition indeed_login (page : pyval) (username password : string)
  : M ActionResult :=
  try_except
    (current_url <- page_url page ;;
     (if negb (PyStr.contains "indeed.com" (PyStr.lower current_url))
      then _ <- call 229 (PageGoto "https://secure.indeed.com/account/login") ;;
           ret tt
      else ret tt) ;;;
     _ <- call 230 PageWaitForLoadState ;;
     let username_sel := "input#login-email-input" in
     let password_sel := "input#login-password-input" in
     let sign_in_btn_sel :=
       "button[data-testid=" ++ PyStr.dquote ++ "login-submit-button"
       ++ PyStr.dquote ++ "]" in
     _ <- call 236 (PageFill username_sel username) ;;
     sleep 500 ;;;
     _ <- call 238 (PageFill password_sel password) ;;
     sleep 500 ;;;
     _ <- call 240 (PageClick sign_in_btn_sel) ;;
     logger_info "Clicked sign in on Indeed." ;;;
     sleep 3000 ;;;
     let msg := "Login attempt complete for Indeed user " ++ username in
     logger_info msg ;;;
     ret (result_content msg))
    (fun e =>
       let msg := "Failed Indeed login flow: " ++ e in
       logger_info msg ;;;
       ret (result_error msg)).

Definition perform_login_flow (data : CredentialsData) (site_name : string)
  : M ActionResult :=
  let site_name_lower := PyStr.strip (PyStr.lower site_name) in
  creds_result <- get_site_login_credentials data site_name_lower ;;
  if has_error creds_result then ret creds_result
  else
    match json_loads (extracted_content creds_result) with
    | None =>
        let msg := "Failed to parse credentials for site "
                   ++ site_name_lower ++ "." in
        logger_info msg ;;;
        ret (result_error msg)
    | Some creds =>
        username <- json_username creds ;;
        password <- json_password creds ;;
        if negb (PyStr.truthy username) || negb (PyStr.truthy password) then
          let msg := "Credentials incomplete for site " ++ site_name_lower in
          logger_info msg ;;;
          ret (result_error msg)
        else
          logger_info ("Attempting to login to " ++ site_name_lower
                       ++ " with user '" ++ username ++ "'") ;;;
          page <- call 184 GetCurrentPage ;;
          if String.eqb site_name_lower "linkedin" then
            linkedin_login page username password
          else if String.eqb site_name_lower "indeed" then
            indeed_login page username password
          else
            let msg := "No specialized login flow for site: "
                       ++ site_name_lower in
            logger_info msg ;;;
            ret (result_error msg)
    end.

(** ** Custom dropdown fallback chain (lines 390-593) *)

Definition max_attempts : Z := 30.

(** The body of [for attempt in range(max_attempts)] (lines 469-481). *)
Definition poll_highlighted (text : string) (attempt : Z)
  : M (option ActionResult) :=
  current_text <- call 469 (PageEvaluate CheckCurrentOptionJs None) ;;
  matched <-
    (if truthy current_text then
       current_lower <- py_lower current_text ;;
       ret (PyStr.contains (PyStr.lower text) current_lower)
     else ret false) ;;
  if (matched : bool) then
    _ <- call 471 (KeyboardPress "Enter") ;;
    sleep 500 ;;;
    let msg := "Selected option '" ++ text
               ++ "' using keyboard nav after "
               ++ PyStr.of_Z (attempt + 1) ++ " attempts" in
    logger_info msg ;;;
    ret (Some (result_content msg))
  else
    (* attempt < max_attempts / 2 *)
    (if Z.ltb (2 * attempt) max_attempts
     then call 478 (KeyboardPress "ArrowDown")
     else call 480 (KeyboardPress "ArrowUp")) ;;;
    sleep 100 ;;;
    ret None.

(** Lines 457-483.  [None]: the block ended without returning. *)
Definition keyboard_navigation (text : string) : M (option ActionResult) :=
  try_except
    (_ <- call 459 ElementClick ;;
     sleep 300 ;;;
     let first_chars := PyStr.slice_to 3 text in
     _ <- call 464 (ElementType first_chars) ;;
     sleep 500 ;;;
     for_each (range max_attempts) (poll_highlighted text))
    (fun e =>
       logger_info ("Keyboard navigation failed: " ++ e) ;;;
       ret None).

Definition option_selectors (text : string) : list string :=
  [ "//div[contains(@class, 'dropdown-menu')]//span[contains(text(), '"
      ++ text ++ "')]";
    "//div[contains(@class, 'dropdown-menu')]//div[contains(text(), '"
      ++ text ++ "')]";
    "//ul[contains(@class, 'dropdown-menu')]//li[contains(text(), '"
      ++ text ++ "')]";
    "//div[contains(@class, 'select2-results')]//li[contains(text(), '"
      ++ text ++ "')]";
    "//div[contains(@class, 'select2-dropdown')]//li[contains(text(), '"
      ++ text ++ "')]";
    "//div[contains(@role, 'listbox')]//div[contains(text(), '"
      ++ text ++ "')]" ].

(** The body of [for selector in option_selectors] (lines 567-576). *)
Definition click_option (text selector : string) : M (option ActionResult) :=
  try_except
    (option <- call 568 (PageWaitForSelector selector) ;;
     if truthy option then
       _ <- call 570 OptionClick ;;
       sleep 500 ;;;
       let msg := "Selected option '" ++ text ++ "' via scrolling/click" in
       logger_info msg ;;;
       ret (Some (result_content msg))
     else ret None)
    (fun e =>
       logger_debug ("Click attempt failed for selector "
                     ++ selector ++ ": " ++ e) ;;;
       ret None).

(** Lines 553-578. *)
Definition scroll_approach (text : string) : M (option ActionResult) :=
  try_except
    (found <- call 554 (PageEvaluate ScrollAndFindJs (Some text)) ;;
     if truthy found then
       sleep 500 ;;;
       for_each (option_selectors text) (click_option text)
     else ret None)
    (fun e =>
       logger_info ("Scroll approach failed: " ++ e) ;;;
       ret None).

(** Lines 581-593. *)
Definition direct_typing (index : Z) (text : string) : M ActionResult :=
  try_except
    (_ <- call 582 ElementClick ;;
     sleep 300 ;;;
     _ <- call 584 (ElementType text) ;;
     sleep 300 ;;;
     _ <- call 586 (KeyboardPress "Enter") ;;
     sleep 500 ;;;
     let msg := "Selected option '" ++ text
                ++ "' using direct typing + enter" in
     logger_info msg ;;;
     ret (result_content msg))
    (fun e =>
       ret (result_error ("Could not select custom dropdown item '" ++ text
                          ++ "' on index " ++ PyStr.of_Z index ++ ": " ++ e))).

Definition custom_select_dropdown_option (index : Z) (text : string)
  : M ActionResult :=
  page <- call 397 GetCurrentPage ;;
  selector_map <- call 398 GetSelectorMap ;;
  selector_map <- as_selector_map selector_map ;;
  match dict_get index selector_map with
  | None => ret (result_error ("No element found at index " ++ PyStr.of_Z index))
  | Some dom_element =>
      (* 1) Scroll into view *)
      try_except
        (_ <- call 407 (PageEvaluate ScrollIntoViewJs (Some (xpath dom_element))) ;;
         sleep 500)
        (fun e =>
           logger_info ("Scroll attempt failed for custom dropdown "
                        ++ PyStr.of_Z index ++ ": " ++ e)) ;;;
      (* 2) Click the element to open dropdown *)
      element_handle <- call 427 (GetLocateElement dom_element) ;;
      if negb (truthy element_handle) then
        ret (result_error ("Could not locate element for custom dropdown at index "
                           ++ PyStr.of_Z index))
      else
        opened <-
          try_except
            (_ <- call 432 ElementClick ;;
             sleep 1000 ;;;
             ret None)
            (fun e =>
               ret (Some (result_error
                            ("Failed to click custom dropdown at index "
                             ++ PyStr.of_Z index ++ ": " ++ e)))) ;;
        match opened with
        | Some failure => ret failure
        | None =>
            (* 3) Attempt keyboard navigation *)
            by_keyboard <- keyboard_navigation text ;;
            match by_keyboard with
            | Some result => ret result
            | None =>
                (* 4) Attempt scroll approach *)
                by_scroll <- scroll_approach text ;;
                match by_scroll with
                | Some result => ret result
                | None =>
                    (* 5) Final fallback: direct typing + enter *)
                    direct_typing index text
                end
            end
        end
  end.

(** ** Resume upload (lines 324-383) *)

(** [d.get(k, default)] on a dict keyed by strings. *)
Definition dict_get_default (k : string) (d : list (string * pyval))
    (default : pyval) : pyval :=
  match sdict_get k d with
  | Some v => v
  | None => default
  end.

Definition as_str (v : pyval) : M string :=
  match v with
  | PStr s => ret s
  | _ => raise ("expected str, not " ++ type_name v)
  end.

(** [for i, input_el in enumerate(file_inputs)] *)
Definition as_handles (v : pyval) : M (list nat) :=
  match v with
  | PHandles n => ret (seq 0 n)
  | _ => raise ("'" ++ type_name v ++ "' object is not iterable")
  end.

Definition upload_resume_file (candidate_global_data : list (string * pyval))
    (index : Z) : M ActionResult :=
  let resume_path := dict_get_default "resume_file_path" candidate_global_data PNone in
  if negb (truthy resume_path) then
    let msg := "No resume_file_path in candidate data." in
    logger_info msg ;;;
    ret (result_error msg)
  else
    resume_path <- as_str resume_path ;;
    full_path <- call 336 (PathResolve resume_path) ;;
    full_path <- as_str full_path ;;
    is_file <- call 337 (PathIsFile full_path) ;;
    if negb (truthy is_file) then
      let msg := "Resume file not found at " ++ full_path in
      logger_info msg ;;;
      ret (result_error msg)
    else
      page <- call 342 GetCurrentPage ;;
      selector_map <- call 346 GetSelectorMap ;;
      selector_map <- as_selector_map selector_map ;;
      dom_element <-
        match dict_get index selector_map with
        | Some el => ret (Some el)
        | None =>
            logger_info ("No element found at index " ++ PyStr.of_Z index
                         ++ ". Will fallback to scanning the page for file inputs.") ;;;
            ret None
        end ;;
      direct <-
        match dom_element with
        | Some el =>
            try_except
              (element_handle <- call 356 (GetLocateElement el) ;;
               if truthy element_handle then
                 _ <- call 358 (ElementSetInputFiles full_path) ;;
                 let msg := "Successfully uploaded resume to element "
                            ++ PyStr.of_Z index in
                 logger_info msg ;;;
                 ret (Some (result_content msg))
               else ret None)
              (fun e =>
                 logger_info ("Could not upload to index " ++ PyStr.of_Z index
                              ++ ": " ++ e) ;;;
                 ret None)
        | None => ret None
        end ;;
      match direct with
      | Some result => ret result
      | None =>
          scanned <-
            try_except
              (file_inputs <- call 367 (PageQuerySelectorAll
                                          ("input[type=" ++ PyStr.dquote ++ "file"
                                           ++ PyStr.dquote ++ "]")) ;;
               if truthy file_inputs then
                 inputs <- as_handles file_inputs ;;
                 logger_info ("Found " ++ PyStr.of_nat (List.length inputs)
                              ++ " <input type='file'> elements. Trying each.") ;;;
                 for_each inputs
                   (fun i =>
                      try_except
                        (_ <- call 372 (InputSetInputFiles i full_path) ;;
                         let msg := "Resume successfully uploaded to file input "
                                    ++ PyStr.of_nat (i + 1) in
                         logger_info msg ;;;
                         ret (Some (result_content msg)))
                        (fun e =>
                           logger_info ("File input " ++ PyStr.of_nat (i + 1)
                                        ++ " upload attempt failed: " ++ e) ;;;
                           ret None))
               else ret None)
              (fun e =>
                 logger_info ("Scanning for standard file inputs failed: " ++ e) ;;;
                 ret None) ;;
          match scanned with
          | Some result => ret result
          | None =>
              let msg := "Could not locate a valid file upload mechanism for the resume." in
              logger_info msg ;;;
              ret (result_error msg)
          end
      end.

(** ** Iterative form filling (lines 599-709) *)

Definition as_result (v : pyval) : M ActionResult :=
  match v with
  | PResult r => ret r
  | _ => attribute_error v "error"
  end.

Definition param_int (k : string) (params : list (string * pyval)) : M Z :=
  match sdict_get k params with
  | Some (PInt z) => ret z
  | _ => raise ("Invalid parameter " ++ k)
  end.

Definition param_str (k : string) (params : list (string * pyval)) : M string :=
  match sdict_get k params with
  | Some (PStr s) => ret s
  | _ => raise ("Invalid parameter " ++ k)
  end.

(** [agent.execute_action(name, params)], called at source line [line].
    The three actions this module registers with the controller run by
    their definitions above; any other action is the collaborator's. *)
Definition execute_action (candidate_global_data : list (string * pyval))
    (line : nat) (name : string) (params : list (string * pyval))
  : M ActionResult :=
  if String.eqb name "input_text_with_retry" then
    index <- param_int "index" params ;;
    text <- param_str "text" params ;;
    input_text_with_retry index text default_max_retries
  else if String.eqb name "custom_select_dropdown_option" then
    index <- param_int "index" params ;;
    text <- param_str "text" params ;;
    custom_select_dropdown_option index text
  else if String.eqb name "upload_resume_file" then
    index <- param_int "index" params ;;
    upload_resume_file candidate_global_data index
  else
    r <- call line (ExecuteAction name params) ;;
    as_result r.

(** [x in l] for a list of strings. *)
Definition str_in (x : string) (l : list string) : bool :=
  existsb (String.eqb x) l.

(** [for x in xs: body x] without early return. *)
Fixpoint for_in {A : Type} (xs : list A) (body : A -> M unit) : M unit :=
  match xs with
  | [] => ret tt
  | x :: xs' => body x ;;; for_in xs' body
  end.

(** Lines 648-658: the value typed into a text field. *)
Definition text_for_label (candidate_global_data : list (string * pyval))
    (label : string) : pyval :=
  if PyStr.contains "name" (PyStr.lower label) then
    dict_get_default "name" candidate_global_data (PStr "John Doe")
  else if PyStr.contains "email" (PyStr.lower label) then
    dict_get_default "email" candidate_global_data (PStr "john@example.com")
  else if PyStr.contains "phone" (PyStr.lower label) then
    dict_get_default "phone" candidate_global_data (PStr "+1-202-555-0147")
  else if PyStr.contains "address" (PyStr.lower label) then
    dict_get_default "address" candidate_global_data (PStr "")
  else PStr "Lorem Ipsum".

(** Lines 670-675: the option chosen for a select field. *)
Definition choice_for_label (label : string) : string :=
  if PyStr.contains "how did you hear" (PyStr.lower label) then "LinkedIn"
  else if PyStr.contains "phone device" (PyStr.lower label) then "Mobile"
  else "Yes".

(** The body of [for field_info in unfilled_list] (lines 638-707). *)
Definition fill_field (candidate_global_data : list (string * pyval))
    (field_info : RequiredField) : M unit :=
  let field_id := field_id field_info in
  let field_type := PyStr.lower (field_type field_info) in
  let label := get_default (field_label field_info) "" in
  logger_info ("Filling field: " ++ field_id ++ ", type=" ++ field_type
               ++ ", label='" ++ label ++ "'") ;;;
  highlight_index <- find_highlight_index_for_field field_id label ;;
  match highlight_index with
  | None =>
      logger_info ("Could not find highlight index for field " ++ field_id
                   ++ ". Skipping.")
  | Some highlight_index =>
      (if str_in field_type ["text"; "textarea"] then
         let text_to_input := text_for_label candidate_global_data label in
         let params := [("index", PInt highlight_index);
                        ("text", text_to_input)] in
         _ <- execute_action candidate_global_data 664
                "input_text_with_retry" params ;;
         ret tt
       else if str_in field_type ["select-one"; "select"] then
         let text_choice := choice_for_label label in
         res_normal <- execute_action candidate_global_data 678
                         "select_dropdown_option"
                         [("index", PInt highlight_index);
                          ("value", PStr text_choice)] ;;
         if has_error res_normal then
           logger_info ("Normal select_dropdown_option failed: "
                        ++ get_default (error res_normal) "") ;;;
           res_custom <- execute_action candidate_global_data 685
                           "custom_select_dropdown_option"
                           [("index", PInt highlight_index);
                            ("text", PStr text_choice)] ;;
           if has_error res_custom then
             logger_info ("Custom select also failed: "
                          ++ get_default (error res_custom) "")
           else ret tt
         else ret tt
       else if str_in field_type ["checkbox"; "radio"] then
         _ <- execute_action candidate_global_data 693 "click_element"
                [("index", PInt highlight_index)] ;;
         ret tt
       else if String.eqb field_type "file" then
         _ <- execute_action candidate_global_data 699 "upload_resume_file"
                [("index", PInt highlight_index)] ;;
         ret tt
       else
         logger_info ("Unsupported field type " ++ field_type ++ ", skipping.")) ;;;
      (* After each fill, track changes *)
      _ <- execute_action candidate_global_data 707 "track_form_changes" [] ;;
      ret tt
  end.

(** [not data_raw] is false exactly for a non-empty string. *)
Definition content_truthy (c : option content) : bool :=
  match c with
  | None => false
  | Some (Plain s) => PyStr.truthy s
  | Some (JsonText _) => true
  end.

Definition content_text (c : option content) : string :=
  match c with
  | Some (Plain s) => s
  | _ => ""
  end.

(** [unfilled_data.get("unfilled_fields", [])]; only an object has [get]. *)
Definition json_unfilled_fields (j : json) : M (list RequiredField) :=
  match j with
  | JUnfilled (Some l) => ret l
  | JUnfilled None => ret []
  | JCredentials _ _ => ret []
  | JOther t => raise ("'" ++ t ++ "' object has no attribute 'get'")
  end.

Definition max_rounds : Z := 25.

(** [while round_count < max_rounds:], with [remaining] the number of
    values [round_count] can still take below [max_rounds]. *)
Fixpoint rounds_loop (candidate_global_data : list (string * pyval))
    (remaining : nat) (round_count : Z) : M unit :=
  match remaining with
  | O => ret tt
  | S remaining' =>
      let round_count := (round_count + 1)%Z in
      (* 1) Retrieve unfilled fields *)
      unfilled_response <- execute_action candidate_global_data 611
                             "get_unfilled_required_fields" [] ;;
      if has_error unfilled_response then
        logger_info ("Failed to get unfilled fields: "
                     ++ get_default (error unfilled_response) "")
      else
        let data_raw := extracted_content unfilled_response in
        if negb (content_truthy data_raw) then
          logger_info "get_unfilled_required_fields returned no content. Exiting fill logic."
        else
          match json_loads data_raw with
          | None =>
              logger_info ("Could not parse unfilled fields JSON: "
                           ++ content_text data_raw)
          | Some unfilled_data =>
              unfilled_list <- json_unfilled_fields unfilled_data ;;
              match unfilled_list with
              | [] =>
                  logger_info "No more unfilled required fields. Form may be complete."
              | _ =>
                  logger_info ("Round " ++ PyStr.of_Z round_count ++ ": Found "
                               ++ PyStr.of_nat (List.length unfilled_list)
                               ++ " unfilled fields.") ;;;
                  (* 2) fill them one by one *)
                  for_in unfilled_list (fill_field candidate_global_data) ;;;
                  rounds_loop candidate_global_data remaining' round_count
              end
          end
  end.

Definition fill_fields_iteratively
    (candidate_global_data : list (string * pyval)) : M unit :=
  let round_count := 0%Z in
  rounds_loop candidate_global_data
              (Z.to_nat (max_rounds - round_count)) round_count ;;;
  logger_info "Done with fill_fields_iteratively.".
(** ** The application run (lines 729-839)

    [run_job_application] creates the browser and the agent, lets the agent
    run, fills the form, looks for a submit button and closes what it
    opened.  Its requests are those of the sections above together with the
    ones below; the local variable [agent] is threaded through as state,
    since the [finally] block reads it whatever happened before. *)

Module Session.

Inductive session_action :=
| Core (a : action)
    (* a request of the form-filling code above *)
| NewBrowser
    (* [Browser(config=BrowserConfig(...))], lines 742-759 *)
| NewAgent (job_url : string)
    (* [Agent(task=..., llm=ChatOpenAI(...), browser=browser, ...)] with the
       task text of lines 769-795 for this job URL, lines 798-805 *)
| AgentRun (max_steps : Z)
    (* [agent.run(max_steps=...)] *)
| ControllerExecute (name : string) (params : list (string * pyval))
    (* [controller.execute_action(name, params, agent.browser_context)] *)
| ContextClose
    (* [agent.browser_context.close()] *)
| BrowserClose.
    (* [browser.close()] *)

Record session_event := mkSessionEvent {
  sev_line : nat;
  sev_action : session_action;
  sev_response : response
}.

Definition SessionEnv := nat -> session_action -> response.

(** Outcome of a step: its result, the value of the local variable [agent]
    after it, the requests made and the log lines written. *)
Record SOut (A : Type) := mkSOut {
  sres : result A;
  sagent : option pyval;
  sevents : list session_event;
  slogs : list string
}.
Arguments mkSOut {A}.
Arguments sres {A}.
Arguments sagent {A}.
Arguments sevents {A}.
Arguments slogs {A}.

Definition SessionM (A : Type) :=
  SessionEnv -> nat -> option pyval -> SOut A.

Definition sret {A} (a : A) : SessionM A := fun _ _ ag => mkSOut (Val a) ag [] [].

Definition sraise {A} (msg : string) : SessionM A :=
  fun _ _ ag => mkSOut (Exc msg) ag [] [].

Definition sbind {A B} (m : SessionM A) (f : A -> SessionM B) : SessionM B :=
  fun env n ag =>
    match m env n ag with
    | mkSOut (Val a) ag1 evs lg =>
        match f a env (n + List.length evs) ag1 with
        | mkSOut r ag2 evs' lg' => mkSOut r ag2 (evs ++ evs') (lg ++ lg')
        end
    | mkSOut (Exc e) ag1 evs lg => mkSOut (Exc e) ag1 evs lg
    end.

(** [try: m  except Exception as e: h e] *)
Definition stry_except {A} (m : SessionM A) (h : string -> SessionM A) : SessionM A :=
  fun env n ag =>
    match m env n ag with
    | mkSOut (Val a) ag1 evs lg => mkSOut (Val a) ag1 evs lg
    | mkSOut (Exc e) ag1 evs lg =>
        match h e env (n + List.length evs) ag1 with
        | mkSOut r ag2 evs' lg' => mkSOut r ag2 (evs ++ evs') (lg ++ lg')
        end
    end.

(** [try: m  finally: c]: [c] runs whatever [m] did; an exception of [c]
    replaces the outcome of [m]. *)
Definition stry_finally {A} (m : SessionM A) (c : SessionM unit) : SessionM A :=
  fun env n ag =>
    match m env n ag with
    | mkSOut r ag1 evs lg =>
        match c env (n + List.length evs) ag1 with
        | mkSOut (Val _) ag2 evs' lg' => mkSOut r ag2 (evs ++ evs') (lg ++ lg')
        | mkSOut (Exc e) ag2 evs' lg' =>
            mkSOut (Exc e) ag2 (evs ++ evs') (lg ++ lg')
        end
    end.

Definition scall (line : nat) (a : session_action) : SessionM pyval :=
  fun env n ag =>
    let r := env n a in
    mkSOut (match r with Ret v => Val v | Raise msg => Exc msg end) ag
           [mkSessionEvent line a r] [].

(** [logger.info(msg)] and [logger.error(msg)] *)
Definition slog (msg : string) : SessionM unit :=
  fun _ _ ag => mkSOut (Val tt) ag [] [msg].

(** [agent = v] *)
Definition set_agent (v : option pyval) : SessionM unit :=
  fun _ _ _ => mkSOut (Val tt) v [] [].

(** The value of [agent]. *)
Definition get_agent : SessionM (option pyval) :=
  fun _ _ ag => mkSOut (Val ag) ag [] [].

Definition core_event (e : event) : session_event :=
  mkSessionEvent (ev_line e) (Core (ev_action e)) (ev_response e).

(** A computation of the form-filling code run within the session. *)
Definition lift {A} (m : M A) : SessionM A :=
  fun env n ag =>
    match m (fun k a => env k (Core a)) n with
    | mkOut r evs lg => mkSOut r ag (map core_event evs) lg
    end.

Definition submit_words : list string :=
  ["submit"; "apply"; "send"; "complete"; "finish"].

(** [any(x in text_in_el for x in [...])] *)
Definition looks_like_submit (text_in_el : string) : bool :=
  existsb (fun x => PyStr.contains x text_in_el) submit_words.

(** [for x in xs: body x] with [break]: [Some] leaves the loop. *)
Fixpoint sfor_each {A R : Type} (xs : list A) (body : A -> SessionM (option R))
  : SessionM (option R) :=
  match xs with
  | [] => sret None
  | x :: xs' =>
      sbind (body x)
            (fun r => match r with
                      | Some v => sret (Some v)
                      | None => sfor_each xs' body
                      end)
  end.

Section Run.

(** [el.get_all_text_till_next_clickable_element(max_depth=0)] *)
Variable shallow_text : DomElement -> string.

(** The body of the loop of lines 815-826. *)
Definition click_if_submit (item : Z * DomElement) : SessionM (option unit) :=
  let idx := fst item in
  let el := snd item in
  let text_in_el := PyStr.lower (shallow_text el) in
  if looks_like_submit text_in_el then
    sbind (slog ("Found potential submit button at index " ++ PyStr.of_Z idx
                 ++ ", text: " ++ text_in_el)) (fun _ =>
    sbind (scall 820 (ControllerExecute "click_element"
                        [("index", PInt idx)])) (fun _ =>
    (* asyncio.sleep(3); break *)
    sret (Some tt)))
  else sret None.

(** Lines 814-826. *)
Definition submit_if_found : SessionM unit :=
  sbind (scall 814 (Core GetState)) (fun final_state =>
  sbind (lift (state_selector_map final_state)) (fun selector_map =>
  sbind (sfor_each selector_map click_if_submit) (fun _ =>
  sret tt))).

(** Lines 836-839, the [finally] block. *)
Definition close_all : SessionM unit :=
  sbind get_agent (fun agent =>
  sbind (if match agent with Some v => truthy v | None => false end
         then sbind (scall 837 ContextClose) (fun _ => sret tt)
         else sret tt) (fun _ =>
  sbind (slog "Closing browser.") (fun _ =>
  sbind (scall 839 BrowserClose) (fun _ =>
  sret tt)))).

(** Lines 764-830, the body of the [try]. *)
Definition apply_to_job (job_url : string)
    (candidate_global_data : list (string * pyval)) : SessionM unit :=
  sbind (scall 798 (NewAgent job_url)) (fun agent =>
  sbind (set_agent (Some PObject)) (fun _ =>
  (* 1) Start the agent's main instructions *)
  sbind (scall 808 (AgentRun 50)) (fun _ =>
  (* 2) Fill fields iteratively *)
  sbind (lift (fill_fields_iteratively candidate_global_data)) (fun _ =>
  (* 3) Attempt to find "Submit" or "Send" or "Finish" button *)
  sbind submit_if_found (fun _ =>
  slog "Done with application flow. Browser-use will create GIF automatically."))))).

(** [candidate_global_data] is [candidate_profile.model_dump()]. *)
Definition run_job_application (job_url : string)
    (candidate_global_data : list (string * pyval)) : SessionM unit :=
  sbind (scall 742 NewBrowser) (fun browser =>
  sbind (set_agent None) (fun _ =>
  stry_finally
    (stry_except
       (apply_to_job job_url candidate_global_data)
       (fun e =>
          sbind (slog ("Error in agent run: " ++ e)) (fun _ =>
          sraise e)))
    close_all)).

End Run.

(** ** Vocabulary of the application run *)

Definition at_sline (l : nat) (e : session_event) : bool :=
  Nat.eqb (sev_line e) l.

Definition count_sline (l : nat) (evs : list session_event) : nat :=
  List.length (filter (at_sline l) evs).

Definition sanswered (e : session_event) : bool :=
  match sev_response e with
  | Ret _ => true
  | Raise _ => false
  end.

(** The requests of a step all come from lines accepted by [p]. *)
Definition sonly_lines {A} (p : nat -> bool) (m : SessionM A) : Prop :=
  forall env n ag, forallb (fun e => p (sev_line e)) (sevents (m env n ag)) = true.

(** Lines of the [try] body: everything before the [finally] block, the
    creation of the browser apart. *)
Definition body_line (l : nat) : bool := ((l <? 837) && negb (l =? 742))%nat.

(** A step that does not assign the local variable [agent]. *)
Definition keeps_agent {A} (m : SessionM A) : Prop :=
  forall env n ag, sagent (m env n ag) = ag.

Definition is_context_close (e : session_event) : bool :=
  at_sline 837 e && match sev_action e with ContextClose => true | _ => false end.

Definition is_browser_close (e : session_event) : bool :=
  at_sline 839 e && match sev_action e with BrowserClose => true | _ => false end.

(** What the [finally] block may leave in the trace.  With an agent: the
    context is closed and then the browser, unless closing the context
    raised, in which case nothing follows.  Without an agent: the browser is
    closed. *)
Definition closes_properly (agent_created : bool)
    (closing : list session_event) : bool :=
  match agent_created, closing with
  | true, [c] => is_context_close c && negb (sanswered c)
  | true, [c; b] => is_context_close c && sanswered c && is_browser_close b
  | false, [b] => is_browser_close b
  | _, _ => false
  end.

(** The first entry of the selector map whose text looks like a submit
    button. *)
Definition first_submit (shallow_text : DomElement -> string)
    (sm : SelectorMap) : option (Z * DomElement) :=
  find (fun item => looks_like_submit (PyStr.lower (shallow_text (snd item)))) sm.

End Session.


(** ** Vocabulary of the statements *)

(** [needle] occurs in [hay] up to letter case. *)
Definition contains_ci (needle hay : string) : Prop :=
  exists pre mid suf,
    hay = pre ++ mid ++ suf /\ PyStr.lower mid = PyStr.lower needle.

(** The element's path contains the field id, or its text contains the
    label, up to letter case. *)
Definition entry_matches (field_id label : string) (dom_el : DomElement)
  : Prop :=
  contains_ci field_id (xpath dom_el) \/ contains_ci label (all_text dom_el).

Definition at_line (l : nat) (e : event) : bool := Nat.eqb (ev_line e) l.

(** Number of requests made from source line [l]. *)
Definition count_line (l : nat) (evs : list event) : nat :=
  List.length (filter (at_line l) evs).




(** The site name as the login flow normalises it (line 160). *)
Definition site_key (site_name : string) : string :=
  PyStr.strip (PyStr.lower site_name).






Definition answered (e : event) : bool :=
  match ev_response e with
  | Ret _ => true
  | Raise _ => false
  end.













(** Every request of [m] is made from a source line accepted by [p]. *)
Definition only_lines {A} (p : nat -> bool) (m : M A) : Prop :=
  forall env k, forallb (fun e => p (ev_line e)) (events (m env k)) = true.

(** The discovery query of line 611. *)
Definition discovery_request : action :=
  ExecuteAction "get_unfilled_required_fields" [].

Definition discovery_reply (l : list RequiredField) : response :=
  Ret (PResult (mkResult None (Some (JsonText (JUnfilled (Some l)))) false)).

(** Discovery keeps returning the same non-empty list [l], none of whose
    fields can be located in the element index. *)
Definition stuck_on (l : list RequiredField) (env : Env) : Prop :=
  l <> []
  /\ (forall n, env n discovery_request = discovery_reply l)
  /\ (forall n, exists sm,
         env n GetState = Ret (PState sm)
         /\ Forall (fun f => first_match (field_id f)
                               (get_default (field_label f) "") sm = None) l).

(** Source lines other than the discovery query of line 611. *)
Definition not_discovery (l : nat) : bool := negb (Nat.eqb l 611).

(** At most [c] discovery queries. *)
Definition at_most_rounds {A} (c : nat) (m : M A) : Prop :=
  forall env k, count_line 611 (events (m env k)) <= c.

(** A JSON object whose ["unfilled_fields"] is missing or empty. *)
Definition lists_no_unfilled (j : json) : Prop :=
  match j with
  | JUnfilled (Some l) => l = []
  | JUnfilled None => True
  | JCredentials _ _ => True
  | JOther _ => False
  end.

(** Discovery answers that end the loop: an error, no content, text that is
    not JSON, or no unfilled field. *)
Inductive terminal_discovery (r : ActionResult) : Prop :=
| discovery_error : has_error r = true -> terminal_discovery r
| discovery_no_content :
    extracted_content r = None \/ extracted_content r = Some (Plain "") ->
    terminal_discovery r
| discovery_unparseable s :
    extracted_content r = Some (Plain s) -> terminal_discovery r
| discovery_nothing_unfilled j :
    extracted_content r = Some (JsonText j) ->
    lists_no_unfilled j -> terminal_discovery r.
(** ** Vocabulary of the further properties *)

(** The entry stored last under a key that lower-cases to [key]. *)
Definition last_entry_for (key : string) (data : CredentialsData)
  : option Credentials :=
  option_map snd
    (find (fun kv => String.eqb (PyStr.lower (fst kv)) key) (rev data)).







(** The paths handed to file inputs, in order. *)
Definition uploaded_paths (evs : list event) : list string :=
  flat_map (fun e => match ev_action e with
                     | ElementSetInputFiles p | InputSetInputFiles _ p => [p]
                     | _ => []
                     end) evs.

(** The positions, in the page's list of file inputs, of the inputs tried
    by the scan of line 372. *)
Definition scan_indices (evs : list event) : list nat :=
  flat_map (fun e => match ev_action e with
                     | InputSetInputFiles i _ => [i]
                     | _ => []
                     end) evs.

(** Lines of the three fallback stages that follow the opening click of the
    custom dropdown (keyboard navigation, container scroll, direct
    typing). *)
Definition after_open (l : nat) : bool := (457 <=? l)%nat.

(** The texts typed into an element, in order. *)
Definition typed_texts (evs : list event) : list string :=
  flat_map (fun e => match ev_action e with
                     | ElementType t => [t]
                     | _ => []
                     end) evs.

(** Each read-back (305) follows a typing (301), each typing a clearing
    (297), each clearing an element lookup (286). *)
Definition attempt_steps_nested (evs : list event) : Prop :=
  count_line 305 evs <= count_line 301 evs
  /\ count_line 301 evs <= count_line 297 evs
  /\ count_line 297 evs <= count_line 286 evs.

(** The selectors waited for at line 568, in order. *)
Definition waited_selectors (evs : list event) : list string :=
  flat_map (fun e => match ev_action e with
                     | PageWaitForSelector s => [s]
                     | _ => []
                     end) evs.


(** Source lines of the custom dropdown action (lines 390-593). *)
Definition dropdown_line (l : nat) : bool := ((397 <=? l) && (l <=? 593))%nat.

(** Source lines before the custom dropdown action: those of the text
    input and of the resume upload. *)
Definition before_dropdown (l : nat) : bool := (l <? 397)%nat.


(** ** Scenarios *)

Module Scenario.

Definition email_input : DomElement :=
  mkDomElement "//form/input[@id='email-1']" "Email Address".

Definition color_select : DomElement :=
  mkDomElement "//form/div[@id='color']" "Favorite color".

Definition application_form : SelectorMap :=
  [(3%Z, color_select); (7%Z, email_input)].

(** A page whose text fields read back [typed], whatever was typed, and on
    which no dropdown option is ever highlighted. *)
Definition page_reading_back (typed : string) : Env :=
  fun _ a =>
    match a with
    | GetCurrentPage => Ret (PPage "https://jobs.example/apply")
    | GetSelectorMap => Ret (PSelectorMap application_form)
    | GetState => Ret (PState application_form)
    | GetLocateElement _ => Ret PObject
    | ElementEvaluate js =>
        if String.eqb js "el => el.value" then Ret (PStr typed) else Ret PNone
    | _ => Ret PNone
    end.

(** Credentials in which the LinkedIn entries have no password. *)
Definition no_password : CredentialsData :=
  [("linkedin", mkCredentials (Some "jane") None);
   (" linkedin", mkCredentials (Some "jane") None)].

Definition linkedin_only (password : string) : CredentialsData :=
  [("LinkedIn", mkCredentials (Some "jane.doe") (Some password))].

(** A browser already on the LinkedIn login page, where every step works. *)
Definition linkedin_page : Env :=
  fun _ a =>
    match a with
    | GetCurrentPage => Ret (PPage "https://www.linkedin.com/login")
    | _ => Ret PNone
    end.

Definition hidden_field : RequiredField :=
  mkField "resume-upload" "file" (Some "Resume").

(** Discovery always reports [hidden_field]; the element index is empty. *)
Definition overlay_page : Env :=
  fun _ a =>
    match a with
    | ExecuteAction _ _ => discovery_reply [hidden_field]
    | GetState => Ret (PState [])
    | _ => Ret PNone
    end.

(** Discovery reports one unrecognised select field in the first round and
    nothing afterwards; the native selection fails. *)
Definition color_page : Env :=
  fun n a =>
    match a with
    | ExecuteAction name _ =>
        if String.eqb name "get_unfilled_required_fields" then
          if Nat.eqb n 0
          then discovery_reply [mkField "color" "select" (Some "Favorite color")]
          else discovery_reply []
        else if String.eqb name "select_dropdown_option" then
          Ret (PResult (result_error "Element is not a select"))
        else Ret (PResult (mkResult None None false))
    | other => page_reading_back "" n other
    end.

(** Discovery answers with a JSON list instead of an object. *)
Definition list_page : Env :=
  fun _ a =>
    match a with
    | ExecuteAction _ _ =>
        Ret (PResult (mkResult None (Some (JsonText (JOther "list"))) false))
    | _ => Ret PNone
    end.


End Scenario.
(** ** Further scenarios *)

Module Cases.


Definition glassdoor_only : CredentialsData :=
  [("Glassdoor", mkCredentials (Some "jane") (Some "s3cret"))].

Definition candidate : list (string * pyval) :=
  [("name", PStr "Jane Doe"); ("email", PStr "jane@x.com");
   ("phone", PStr "+1-555-0100"); ("resume_file_path", PStr "cv.pdf")].

(** The resume exists; the page has two file inputs, of which the first
    rejects the file. *)
Definition upload_page : Env :=
  fun n a =>
    match a with
    | PathResolve p => Ret (PStr ("/home/jane/" ++ p))
    | PathIsFile _ => Ret (PBool true)
    | PageQuerySelectorAll _ => Ret (PHandles 2)
    | InputSetInputFiles i _ =>
        if Nat.eqb i 0 then Raise "Element is not attached" else Ret PNone
    | other => Scenario.page_reading_back "" n other
    end.

(** The element of the dropdown cannot be located. *)
Definition unlocatable_page : Env :=
  fun n a =>
    match a with
    | GetLocateElement _ => Ret PNone
    | other => Scenario.page_reading_back "" n other
    end.

(** The option is found by the scroll script; the first two option
    locators time out and the third one appears. *)
Definition listbox_page : Env :=
  fun n a =>
    match a with
    | PageEvaluate ScrollAndFindJs _ => Ret (PBool true)
    | PageWaitForSelector _ =>
        if (n <? 3)%nat then Raise "Timeout 1000ms exceeded" else Ret PObject
    | _ => Ret PNone
    end.

Definition submit_button : DomElement :=
  mkDomElement "//form/button[@type='submit']" "Submit Application".

Definition finished_form : SelectorMap :=
  [(3%Z, Scenario.color_select); (7%Z, Scenario.email_input);
   (12%Z, submit_button); (15%Z, submit_button)].

(** A session in which everything works and the form has nothing left to
    fill. *)
Definition smooth_session : Session.SessionEnv :=
  fun _ a =>
    match a with
    | Session.Core (ExecuteAction _ _) => discovery_reply []
    | Session.Core GetState => Ret (PState finished_form)
    | Session.Core _ => Ret PNone
    | _ => Ret PObject
    end.


End Cases.


(** ** Sanity checks of the string operations *)

Example strip_jane : PyStr.strip "  Jane Doe
" = "Jane Doe".
Proof. reflexivity. Qed.

Example lower_linkedin : PyStr.lower "LinkedIn" = "linkedin".
Proof. reflexivity. Qed.

Example contains_yes : PyStr.contains "yes" "oh yes!" = true.
Proof. reflexivity. Qed.

Example of_Z_neg : PyStr.of_Z (-12) = "-12".
Proof. reflexivity. Qed.

Example repr_list_sites :
  PyStr.repr_list ["LinkedIn"; "Indeed"] = "['LinkedIn', 'Indeed']".
Proof. reflexivity. Qed.

(** ** The field locator returns the first matching entry *)

Section StringFacts.

Lemma append_assoc (a b c : string) : (a ++ b) ++ c = a ++ (b ++ c).
Proof. induction a as [|x a IH]; simpl; [reflexivity | now rewrite IH]. Qed.

Lemma prefix_spec (a b : string) :
  String.prefix a b = true <-> exists suf, b = a ++ suf.
Proof.
  revert b; induction a as [|x a IH]; intros b.
  - destruct b; simpl; split; eauto.
  - destruct b as [|y b]; simpl.
    + split; [discriminate | intros [suf H]; discriminate].
    + destruct (ascii_dec x y) as [->|Hne].
      * rewrite IH. split; intros [suf H]; exists suf; congruence.
      * split; [discriminate | intros [suf H]; congruence].
Qed.

Lemma contains_spec (a b : string) :
  PyStr.contains a b = true <-> exists pre suf, b = pre ++ a ++ suf.
Proof.
  induction b as [|y b IH].
  - change (PyStr.contains a "") with (String.prefix a "" || false).
    rewrite orb_false_r, prefix_spec. split.
    + intros [suf H]. exists "", suf. exact H.
    + intros [pre [suf H]]. destruct pre; simpl in H; [eauto | discriminate].
  - change (PyStr.contains a (String y b))
      with (String.prefix a (String y b) || PyStr.contains a b).
    rewrite orb_true_iff, IH, prefix_spec. split.
    + intros [[suf H] | [pre [suf H]]].
      * exists "", suf. exact H.
      * exists (String y pre), suf. simpl. now rewrite H.
    + intros [pre [suf H]]. destruct pre as [|z pre]; simpl in H.
      * left. eauto.
      * right. exists pre, suf. congruence.
Qed.

Lemma lower_app (a b : string) :
  PyStr.lower (a ++ b) = PyStr.lower a ++ PyStr.lower b.
Proof. induction a as [|x a IH]; simpl; [reflexivity | now rewrite IH]. Qed.

Lemma lower_split (s x y : string) :
  PyStr.lower s = x ++ y ->
  exists s1 s2, s = s1 ++ s2 /\ PyStr.lower s1 = x /\ PyStr.lower s2 = y.
Proof.
  revert s; induction x as [|c x IH]; intros s H; simpl in H.
  - exists "", s. auto.
  - destruct s as [|d s]; simpl in H; [discriminate|].
    injection H as Hc Hs. destruct (IH _ Hs) as [s1 [s2 [-> [H1 H2]]]].
    exists (String d s1), s2. simpl. rewrite H1, Hc. auto.
Qed.

Lemma contains_lower_iff (needle hay : string) :
  PyStr.contains (PyStr.lower needle) (PyStr.lower hay) = true
  <-> contains_ci needle hay.
Proof.
  rewrite contains_spec. split.
  - intros [pre [suf H]].
    destruct (lower_split _ _ _ H) as [h1 [h2 [-> [_ H2]]]].
    destruct (lower_split _ _ _ H2) as [m [s [-> [Hm _]]]].
    exists h1, m, s. auto.
  - intros [pre [mid [suf [-> Hm]]]].
    exists (PyStr.lower pre), (PyStr.lower suf).
    now rewrite !lower_app, Hm.
Qed.

Lemma field_matches_iff (field_id label : string) (dom_el : DomElement) :
  field_matches field_id label dom_el = true
  <-> entry_matches field_id label dom_el.
Proof.
  unfold field_matches, entry_matches.
  now rewrite orb_true_iff, !contains_lower_iff.
Qed.

End StringFacts.

Lemma first_match_is_first (field_id label : string) (items : SelectorMap) :
  match first_match field_id label items with
  | Some i =>
      exists before dom_el after,
        items = (before ++ (i, dom_el) :: after)%list
        /\ entry_matches field_id label dom_el
        /\ Forall (fun e => ~ entry_matches field_id label (snd e)) before
  | None => Forall (fun e => ~ entry_matches field_id label (snd e)) items
  end.
Proof.
  induction items as [|[idx el] items IH]; simpl.
  - constructor.
  - destruct (field_matches field_id label el) eqn:E.
    + exists [], el, items. rewrite field_matches_iff in E. auto.
    + assert (Hn : ~ entry_matches field_id label el).
      { rewrite <- field_matches_iff, E. discriminate. }
      destruct (first_match field_id label items) as [i|].
      * destruct IH as [before [d [after [-> [Hm Hb]]]]].
        exists ((idx, el) :: before), d, after. auto.
      * constructor; auto.
Qed.

(** ** Text input: bounded attempts, success exactly on a verified read-back *)


Lemma count_line_app l a b : count_line l (a ++ b) = count_line l a + count_line l b.
Proof. unfold count_line. now rewrite filter_app, length_app. Qed.



Ltac mred :=
  cbv beta iota zeta delta
    [bind ret raise try_except call logger_info logger_debug sleep py_strip
     py_lower attribute_error negb];
  cbn [app List.length].

Ltac mstep :=
  mred;
  match goal with
  | |- context [match ?e ?k ?a with Ret _ => _ | Raise _ => _ end] =>
      destruct (e k a) as [?v|?msg] eqn:?
  | |- context [if ?b then _ else _] => destruct b eqn:?
  | |- context [match ?v with PNone => _ | _ => _ end] => destruct v
  end.








(** ** Text input: a repeated call on an unchanged field succeeds at once *)








(** ** Login flow: incomplete credentials, and what reaches the log *)

Section Normalisation.

Lemma is_space_lower_char (c : ascii) :
  PyStr.is_space (PyStr.lower_char c) = PyStr.is_space c.
Proof. destruct c as [[] [] [] [] [] [] [] []]; reflexivity. Qed.

Lemma lower_char_idem (c : ascii) :
  PyStr.lower_char (PyStr.lower_char c) = PyStr.lower_char c.
Proof. destruct c as [[] [] [] [] [] [] [] []]; reflexivity. Qed.

Lemma lower_idem (s : string) : PyStr.lower (PyStr.lower s) = PyStr.lower s.
Proof.
  induction s as [|c s IH]; cbn [PyStr.lower]; [reflexivity|].
  now rewrite lower_char_idem, IH.
Qed.

Lemma lower_lstrip (s : string) :
  PyStr.lower (PyStr.lstrip s) = PyStr.lstrip (PyStr.lower s).
Proof.
  induction s as [|c s IH]; cbn [PyStr.lower PyStr.lstrip]; [reflexivity|].
  rewrite is_space_lower_char. destruct (PyStr.is_space c); auto.
Qed.

Lemma lower_rstrip (s : string) :
  PyStr.lower (PyStr.rstrip s) = PyStr.rstrip (PyStr.lower s).
Proof.
  induction s as [|c s IH]; cbn [PyStr.lower PyStr.rstrip]; [reflexivity|].
  rewrite <- IH, is_space_lower_char.
  destruct (PyStr.rstrip s); cbn [PyStr.lower]; [|reflexivity].
  destruct (PyStr.is_space c); reflexivity.
Qed.

Lemma lower_strip (s : string) :
  PyStr.lower (PyStr.strip s) = PyStr.strip (PyStr.lower s).
Proof. unfold PyStr.strip. now rewrite lower_rstrip, lower_lstrip. Qed.

Lemma rstrip_idem (s : string) :
  PyStr.rstrip (PyStr.rstrip s) = PyStr.rstrip s.
Proof.
  induction s as [|c s IH]; cbn [PyStr.rstrip]; [reflexivity|].
  destruct (PyStr.rstrip s) as [|d r] eqn:E.
  - destruct (PyStr.is_space c) eqn:Ec; cbn [PyStr.rstrip]; [reflexivity|].
    now rewrite Ec.
  - cbn [PyStr.rstrip] in *. change (PyStr.rstrip (String c (String d r)))
      with (match PyStr.rstrip (String d r) with
            | EmptyString => if PyStr.is_space c then EmptyString
                             else String c EmptyString
            | r' => String c r'
            end).
    rewrite IH. reflexivity.
Qed.

Lemma lstrip_rstrip_lstrip (s : string) :
  PyStr.lstrip (PyStr.rstrip (PyStr.lstrip s)) = PyStr.rstrip (PyStr.lstrip s).
Proof.
  induction s as [|c s IH]; cbn [PyStr.lstrip]; [reflexivity|].
  destruct (PyStr.is_space c) eqn:Ec; [exact IH|].
  cbn [PyStr.rstrip]. destruct (PyStr.rstrip s); rewrite ?Ec;
    cbn [PyStr.lstrip]; now rewrite Ec.
Qed.

Lemma strip_idem (s : string) : PyStr.strip (PyStr.strip s) = PyStr.strip s.
Proof.
  unfold PyStr.strip. now rewrite lstrip_rstrip_lstrip, rstrip_idem.
Qed.

(** The key looked up at line 129 is the name normalised at line 160. *)
Lemma lookup_key_normal (site_name : string) :
  PyStr.lower (PyStr.strip (site_key site_name)) = site_key site_name.
Proof.
  unfold site_key. now rewrite strip_idem, lower_strip, lower_idem.
Qed.

End Normalisation.

(** C6, amended.  When the entry found for the site has no username or no
    password, [perform_login_flow] returns, without raising and without any
    request to the browser, the failure [Credentials incomplete for site]
    followed by the site name lower-cased and stripped of surrounding
    whitespace. *)
Theorem incomplete_credentials_fail data site_name creds env n :
  sdict_get (site_key site_name) (credentials_lower data) = Some creds ->
  get_default (cred_username creds) "" = ""
  \/ get_default (cred_password creds) "" = "" ->
  perform_login_flow data site_name env n
  = mkOut (Val (result_error ("Credentials incomplete for site "
                              ++ site_key site_name)))
          []
          ["Credentials incomplete for site " ++ site_key site_name].
Proof.
  intros Hget Hlack. unfold perform_login_flow, get_site_login_credentials.
  fold (site_key site_name). rewrite lookup_key_normal, Hget.
  mred. cbn [has_error error extracted_content json_loads json_username json_password].
  mred.
  destruct Hlack as [-> | ->]; cbn [PyStr.truthy negb orb].
  - reflexivity.
  - destruct (PyStr.truthy _); reflexivity.
Qed.

Section PasswordIndependence.








End PasswordIndependence.


(** ** Dropdown fallback chain: the keyboard-navigation stage *)










(** ** Dropdown fallback chain: stages in order, first success wins *)







Ltac stage_lists setup s1 s2 s3 s4 :=
  exists setup, s1, s2, s3, s4;
  split; [cbn [res events logs app]; rewrite ?app_nil_r; try reflexivity|];
  split; [repeat constructor|];
  split; [repeat constructor|];
  split; [repeat constructor; auto|];
  split; [repeat constructor; auto|];
  split; [repeat constructor; auto|].



(** ** Iterative fill loop: round budget, early exits, no progress detection *)

Section Footprint.

Context {p : nat -> bool}.

Lemma only_ret {A} (a : A) : only_lines p (ret a).
Proof. intros env k. reflexivity. Qed.

Lemma only_raise {A} msg : only_lines p (@raise A msg).
Proof. intros env k. reflexivity. Qed.

Lemma only_logger msg : only_lines p (logger_info msg).
Proof. intros env k. reflexivity. Qed.

Lemma only_call line a : p line = true -> only_lines p (call line a).
Proof. intros H env k. cbn. now rewrite H. Qed.

Lemma only_bind {A B} (m : M A) (f : A -> M B) :
  only_lines p m -> (forall a, only_lines p (f a)) -> only_lines p (bind m f).
Proof.
  intros Hm Hf env k. unfold bind. specialize (Hm env k).
  destruct (m env k) as [[a|e] evs lg]; cbn [events] in *; auto.
  specialize (Hf a env (k + List.length evs)).
  destruct (f a env (k + List.length evs)) as [r evs' lg'].
  cbn [events] in *. rewrite forallb_app, Hm, Hf. reflexivity.
Qed.

Lemma only_try {A} (m : M A) (h : string -> M A) :
  only_lines p m -> (forall e, only_lines p (h e)) ->
  only_lines p (try_except m h).
Proof.
  intros Hm Hh env k. unfold try_except. specialize (Hm env k).
  destruct (m env k) as [[a|e] evs lg]; cbn [events] in *; auto.
  specialize (Hh e env (k + List.length evs)).
  destruct (h e env (k + List.length evs)) as [r evs' lg'].
  cbn [events] in *. rewrite forallb_app, Hm, Hh. reflexivity.
Qed.

Lemma only_for_each {A R} (xs : list A) (body : A -> M (option R)) :
  (forall x, only_lines p (body x)) -> only_lines p (for_each xs body).
Proof.
  intros Hb. induction xs as [|x xs IH]; cbn [for_each].
  - apply only_ret.
  - apply only_bind; auto. intros [r|]; auto. apply only_ret.
Qed.

Lemma only_for_in {A} (xs : list A) (body : A -> M unit) :
  (forall x, only_lines p (body x)) -> only_lines p (for_in xs body).
Proof.
  intros Hb. induction xs as [|x xs IH]; cbn [for_in].
  - apply only_ret.
  - apply only_bind; auto.
Qed.

End Footprint.

Ltac footprint :=
  repeat first
    [ apply only_ret
    | apply only_raise
    | apply only_logger
    | apply only_call; reflexivity
    | apply only_bind; [|intros ?]
    | apply only_try; [|intros ?]
    | apply only_for_each; intros ?
    | apply only_for_in; intros ?
    | match goal with
      | |- only_lines _ (if ?b then _ else _) => destruct b
      | |- only_lines _ (match ?x with _ => _ end) => destruct x
      | |- only_lines _ (let _ := _ in _) => cbv zeta
      end
    | progress unfold as_selector_map, py_strip, py_lower, as_str, as_handles,
        as_result, state_selector_map, page_url, param_int, param_str,
        attribute_error, sleep, logger_debug ].

Lemma input_text_footprint index text max_retries :
  only_lines not_discovery (input_text_with_retry index text max_retries).
Proof.
  unfold input_text_with_retry, input_attempt, as_selector_map, py_strip,
    attribute_error, sleep.
  footprint.
Qed.

Lemma custom_select_footprint index text :
  only_lines not_discovery (custom_select_dropdown_option index text).
Proof.
  unfold custom_select_dropdown_option, keyboard_navigation, poll_highlighted,
    scroll_approach, click_option, direct_typing, as_selector_map, py_lower,
    attribute_error, sleep, logger_debug.
  footprint.
Qed.

Lemma upload_footprint candidate index :
  only_lines not_discovery (upload_resume_file candidate index).
Proof.
  unfold upload_resume_file, as_selector_map, as_str, as_handles, sleep.
  footprint.
Qed.

Lemma fill_field_footprint candidate f :
  only_lines not_discovery (fill_field candidate f).
Proof.
  unfold fill_field, execute_action, find_highlight_index_for_field,
    state_selector_map, param_int, param_str, as_result, attribute_error.
  footprint. apply upload_footprint.
Qed.

Lemma only_no_rounds {A} (m : M A) :
  only_lines not_discovery m -> at_most_rounds 0 m.
Proof.
  intros H env k. specialize (H env k). unfold count_line.
  induction (events (m env k)) as [|e evs IH]; cbn [filter List.length forallb] in *; auto.
  apply andb_true_iff in H. destruct H as [He H].
  unfold not_discovery in He. unfold at_line.
  destruct (Nat.eqb (ev_line e) 611); [discriminate|]. auto.
Qed.

Lemma at_most_bind {A B} c1 c2 (m : M A) (f : A -> M B) :
  at_most_rounds c1 m -> (forall a, at_most_rounds c2 (f a)) ->
  at_most_rounds (c1 + c2) (bind m f).
Proof.
  intros Hm Hf env k. unfold bind. specialize (Hm env k).
  destruct (m env k) as [[a|e] evs lg]; cbn [events] in *; [|lia].
  specialize (Hf a env (k + List.length evs)).
  destruct (f a env (k + List.length evs)) as [r evs' lg'].
  cbn [events] in *. rewrite count_line_app. lia.
Qed.

Lemma at_most_weaken {A} c c' (m : M A) :
  at_most_rounds c m -> c <= c' -> at_most_rounds c' m.
Proof. intros H Hle env k. specialize (H env k). lia. Qed.

Lemma execute_discovery candidate :
  execute_action candidate 611 "get_unfilled_required_fields" []
  = (r <- call 611 discovery_request ;; as_result r).
Proof. reflexivity. Qed.

Lemma discovery_at_most_one candidate :
  at_most_rounds 1
    (execute_action candidate 611 "get_unfilled_required_fields" []).
Proof.
  rewrite execute_discovery. intros env k. unfold count_line. mred.
  destruct (env k discovery_request) as [[]|]; reflexivity.
Qed.

Lemma rounds_loop_bound candidate remaining : forall round_count,
  at_most_rounds remaining (rounds_loop candidate remaining round_count).
Proof.
  induction remaining as [|remaining IH]; intros round_count.
  - intros env k. cbn. lia.
  - cbn [rounds_loop].
    change (S remaining) with (1 + remaining).
    apply at_most_bind; [apply discovery_at_most_one|].
    intros resp.
    destruct (has_error resp);
      [apply at_most_weaken with 0; [apply only_no_rounds; footprint | lia]|].
    destruct (negb (content_truthy (extracted_content resp)));
      [apply at_most_weaken with 0; [apply only_no_rounds; footprint | lia]|].
    destruct (json_loads (extracted_content resp)) as [j|];
      [|apply at_most_weaken with 0; [apply only_no_rounds; footprint | lia]].
    change remaining with (0 + remaining).
    apply at_most_bind;
      [apply only_no_rounds; unfold json_unfilled_fields; footprint|].
    intros [|f l];
      [apply at_most_weaken with 0; [apply only_no_rounds; footprint | lia]|].
    change remaining with (0 + (0 + remaining)).
    apply at_most_bind; [apply only_no_rounds; footprint|]. intros _.
    apply at_most_bind; [|intros _; apply IH].
    apply only_no_rounds. apply only_for_in. intros x. apply fill_field_footprint.
Qed.

Lemma rounds_loop_stops candidate remaining round_count env k r :
  env k discovery_request = Ret (PResult r) ->
  terminal_discovery r ->
  exists msg,
    rounds_loop candidate (S remaining) round_count env k
    = mkOut (Val tt) [mkEvent 611 discovery_request (Ret (PResult r))] [msg].
Proof.
  intros Henv Ht. cbn [rounds_loop]. rewrite execute_discovery.
  unfold as_result. mred. rewrite Henv. mred.
  destruct (has_error r) eqn:He; mred; [eauto|].
  destruct Ht as [Ht | [Ht | Ht] | s Ht | j Ht Hj].
  - congruence.
  - rewrite Ht. cbn [content_truthy]. mred. eauto.
  - rewrite Ht. cbn [content_truthy PyStr.truthy]. mred. eauto.
  - rewrite Ht. cbn [content_truthy json_loads].
    destruct (PyStr.truthy s); mred; eauto.
  - rewrite Ht. cbn [content_truthy json_loads]. mred.
    destruct j as [u p|[l|]|t]; cbn [lists_no_unfilled] in Hj;
      try contradiction; subst; cbn [json_unfilled_fields]; mred; eauto.
Qed.

Lemma fill_field_unlocatable candidate f sm env k :
  env k GetState = Ret (PState sm) ->
  first_match (field_id f) (get_default (field_label f) "") sm = None ->
  exists lg,
    fill_field candidate f env k
    = mkOut (Val tt) [mkEvent 718 GetState (Ret (PState sm))] lg.
Proof.
  intros Henv Hm. unfold fill_field, find_highlight_index_for_field. mred.
  rewrite ?Nat.add_0_r, Henv. cbn [state_selector_map]. mred. rewrite Hm. mred. eauto.
Qed.

Lemma stuck_fields candidate l env :
  (forall n, exists sm,
      env n GetState = Ret (PState sm)
      /\ Forall (fun f => first_match (field_id f)
                            (get_default (field_label f) "") sm = None) l) ->
  forall l' k, incl l' l ->
    exists evs lg,
      for_in l' (fill_field candidate) env k = mkOut (Val tt) evs lg
      /\ forallb (at_line 718) evs = true.
Proof.
  intros Hs l'. induction l' as [|f l' IH]; intros k Hincl.
  - exists [], []. split; reflexivity.
  - cbn [for_in]. unfold bind at 1.
    destruct (Hs k) as [sm [Henv Hall]].
    rewrite Forall_forall in Hall.
    destruct (fill_field_unlocatable candidate f sm env k Henv) as [lg1 ->].
    { apply Hall. apply Hincl. left; reflexivity. }
    destruct (IH (k + List.length [mkEvent 718 GetState (Ret (PState sm))]))
      as [evs [lg [-> Hl]]].
    { intros x Hx. apply Hincl. right; exact Hx. }
    eexists; eexists. split; [reflexivity|]. cbn. exact Hl.
Qed.

Lemma stuck_rounds candidate l env :
  stuck_on l env ->
  forall remaining round_count k,
    exists evs lg,
      rounds_loop candidate remaining round_count env k = mkOut (Val tt) evs lg
      /\ count_line 611 evs = remaining
      /\ forallb (fun e => at_line 611 e || at_line 718 e) evs = true
      /\ Forall (fun e => ev_line e = 611 -> ev_response e = discovery_reply l) evs.
Proof.
  intros [Hne [Hd Hs]] remaining.
  induction remaining as [|remaining IH]; intros round_count k.
  - exists [], []. repeat split; auto.
  - cbn [rounds_loop]. rewrite execute_discovery. unfold as_result. mred.
    rewrite Hd. unfold discovery_reply. mred.
    cbn [has_error error extracted_content content_truthy json_loads
         json_unfilled_fields negb].
    destruct l as [|f0 l0]; [congruence|]. mred.
    match goal with
    | |- context [for_in _ _ env ?j] =>
        destruct (stuck_fields candidate (f0 :: l0) env Hs (f0 :: l0) j)
          as [evs1 [lg1 [-> Hl1]]]; [intros x Hx; exact Hx|]
    end.
    match goal with
    | |- context [rounds_loop _ _ _ env ?j] =>
        destruct (IH (round_count + 1)%Z j)
          as [evs2 [lg2 [-> [Hc2 [Hl2 Hr2]]]]]
    end.
    eexists; eexists. split; [reflexivity|].
    assert (Hz : count_line 611 evs1 = 0).
    { clear - Hl1. unfold count_line.
      induction evs1 as [|e evs1 IHe]; cbn [filter forallb List.length] in *; auto.
      apply andb_true_iff in Hl1. destruct Hl1 as [He Hl1].
      unfold at_line in *. apply Nat.eqb_eq in He. rewrite He.
      cbn. auto. }
    split; [|split].
    + change (count_line 611 (?e :: ?t)) with (S (count_line 611 t)).
      rewrite count_line_app. lia.
    + cbn [forallb]. rewrite forallb_app, Hl2, andb_true_r.
      cbn [at_line ev_line Nat.eqb orb andb].
      clear - Hl1. induction evs1 as [|e evs1 IHe]; cbn [forallb] in *; auto.
      apply andb_true_iff in Hl1. destruct Hl1 as [-> Hl1].
      rewrite orb_true_r. cbn. auto.
    + constructor; [intros _; reflexivity|].
      apply Forall_app. split; [|exact Hr2].
      clear - Hl1. induction evs1 as [|e evs1 IHe]; cbn [forallb] in *; auto.
      apply andb_true_iff in Hl1. destruct Hl1 as [He Hl1].
      constructor; auto. unfold at_line in He. apply Nat.eqb_eq in He.
      intros H. rewrite He in H. discriminate.
Qed.

Lemma fill_fields_unfold candidate env k :
  fill_fields_iteratively candidate env k
  = match rounds_loop candidate 25 0 env k with
    | mkOut (Val _) evs lg =>
        mkOut (Val tt) (evs ++ []) (lg ++ ["Done with fill_fields_iteratively."])
    | mkOut (Exc e) evs lg => mkOut (Exc e) evs lg
    end.
Proof. reflexivity. Qed.

Lemma fill_fields_events candidate env k :
  events (fill_fields_iteratively candidate env k)
  = events (rounds_loop candidate 25 0 env k).
Proof.
  rewrite fill_fields_unfold.
  destruct (rounds_loop candidate 25 0 env k) as [[u|e] evs lg]; cbn [events];
    rewrite ?app_nil_r; reflexivity.
Qed.

(** C4.  [fill_fields_iteratively] queries discovery at most 25 times.  In
    any round, a discovery answer that is an error, has no content, is not
    JSON, or lists no unfilled field ends the loop at once with a normal
    return.  With no round left the loop returns normally; in particular,
    when the same field stays unlocatable for all 25 rounds the function
    returns normally after the 25th. *)
Theorem fill_loop_round_budget candidate :
  (forall env k,
      count_line 611 (events (fill_fields_iteratively candidate env k)) <= 25)
  /\ (forall remaining round_count env k r,
         env k discovery_request = Ret (PResult r) ->
         terminal_discovery r ->
         exists msg,
           rounds_loop candidate (S remaining) round_count env k
           = mkOut (Val tt)
                   [mkEvent 611 discovery_request (Ret (PResult r))] [msg])
  /\ (forall round_count env k,
         rounds_loop candidate 0 round_count env k = mkOut (Val tt) [] [])
  /\ (forall l env k,
         stuck_on l env ->
         res (fill_fields_iteratively candidate env k) = Val tt
         /\ count_line 611 (events (fill_fields_iteratively candidate env k))
            = 25).
Proof.
  split; [|split; [|split]].
  - intros env k. rewrite fill_fields_events. apply rounds_loop_bound.
  - intros. now apply rounds_loop_stops.
  - reflexivity.
  - intros l env k Hs. rewrite fill_fields_events, fill_fields_unfold.
    destruct (stuck_rounds candidate l env Hs 25 0%Z k) as [evs [lg [-> [Hc _]]]].
    split; [reflexivity | exact Hc].
Qed.

(** C5, amended.  The loop does not detect lack of progress: when
    discovery answers every round with the same non-empty list and none of
    its fields can be located, so that no fill is ever attempted, the loop
    still runs all 25 rounds and then returns normally. *)
Theorem no_progress_runs_to_budget candidate l env k :
  stuck_on l env ->
  let o := fill_fields_iteratively candidate env k in
  count_line 611 (events o) = 25
  /\ Forall (fun e => ev_line e = 611 -> ev_response e = discovery_reply l)
            (events o)
  /\ Forall (fun e => ev_line e = 611 \/ ev_line e = 718) (events o)
  /\ res o = Val tt.
Proof.
  intros Hs. cbv zeta. rewrite fill_fields_events, fill_fields_unfold.
  destruct (stuck_rounds candidate l env Hs 25 0%Z k)
    as [evs [lg [-> [Hc [Hl Hr]]]]].
  cbn [events res]. repeat split; auto.
  apply Forall_forall. intros e Hin. rewrite forallb_forall in Hl.
  specialize (Hl e Hin). unfold at_line in Hl.
  apply orb_true_iff in Hl. rewrite !Nat.eqb_eq in Hl. exact Hl.
Qed.

(** ** The field locator on the reported element index *)

(** C3.  On the element index the browser reports, the field locator
    returns the first entry, in the order of the index, whose path contains
    the field id or whose text contains the label, up to letter case; it
    returns [None] exactly when no entry matches. *)
Theorem field_locator_first_match field_id label sm env k :
  env k GetState = Ret (PState sm) ->
  exists found,
    res (find_highlight_index_for_field field_id label env k) = Val found
    /\ match found with
       | Some i =>
           exists before dom_el after,
             sm = (before ++ (i, dom_el) :: after)%list
             /\ entry_matches field_id label dom_el
             /\ Forall (fun e => ~ entry_matches field_id label (snd e)) before
       | None => Forall (fun e => ~ entry_matches field_id label (snd e)) sm
       end.
Proof.
  intros Henv. exists (first_match field_id label sm). split.
  - unfold find_highlight_index_for_field. mred. rewrite Henv. reflexivity.
  - apply first_match_is_first.
Qed.

Lemma field_locator_first_match_witness :
  exists found,
    res (find_highlight_index_for_field "email-1" "Email Address"
           (Scenario.page_reading_back "") 0) = Val found
    /\ match found with
       | Some i =>
           exists before dom_el after,
             Scenario.application_form = (before ++ (i, dom_el) :: after)%list
             /\ entry_matches "email-1" "Email Address" dom_el
             /\ Forall (fun e => ~ entry_matches "email-1" "Email Address" (snd e))
                       before
       | None =>
           Forall (fun e => ~ entry_matches "email-1" "Email Address" (snd e))
                  Scenario.application_form
       end.
Proof.
  apply (field_locator_first_match "email-1" "Email Address"
           Scenario.application_form (Scenario.page_reading_back "") 0).
  reflexivity.
Defined.

Example locate_email :
  res (run (find_highlight_index_for_field "email-1" "Email Address")
           (Scenario.page_reading_back "")) = Val (Some 7%Z).
Proof. vm_compute. reflexivity. Qed.

(** C10.  With an empty label the locator returns the first index of a
    non-empty element index, whatever the field id: the empty string occurs
    in every element's text. *)
Theorem empty_label_matches_first field_id idx dom_el rest env k :
  env k GetState = Ret (PState ((idx, dom_el) :: rest)) ->
  res (find_highlight_index_for_field field_id "" env k) = Val (Some idx)
  /\ first_match field_id "" ((idx, dom_el) :: rest) = Some idx.
Proof.
  intros Henv.
  assert (H : first_match field_id "" ((idx, dom_el) :: rest) = Some idx).
  { cbn [first_match]. unfold field_matches.
    assert (Hc : forall s, PyStr.contains "" s = true) by (intros []; reflexivity).
    cbn [PyStr.lower]. rewrite Hc, orb_true_r. reflexivity. }
  split; [|exact H].
  unfold find_highlight_index_for_field. mred. rewrite Henv.
  cbn [state_selector_map]. mred. now rewrite H.
Qed.

Lemma empty_label_matches_first_witness :
  res (find_highlight_index_for_field "email-1" ""
         (Scenario.page_reading_back "") 0) = Val (Some 3%Z)
  /\ first_match "email-1" "" Scenario.application_form = Some 3%Z.
Proof.
  apply (empty_label_matches_first "email-1" 3%Z Scenario.color_select
           [(7%Z, Scenario.email_input)] (Scenario.page_reading_back "") 0).
  reflexivity.
Defined.

(** ** Instances on concrete pages *)


Example read_back_trimmed :
  res (run (input_text_with_retry 7 "Jane Doe" default_max_retries)
           (Scenario.page_reading_back " Jane Doe "))
  = Val (result_content "Successfully input 'Jane Doe' into field 7").
Proof. vm_compute. reflexivity. Qed.

Example read_back_differs :
  res (run (input_text_with_retry 7 "Jane Doe" default_max_retries)
           (Scenario.page_reading_back "Jane Do"))
  = Val (result_error "Unable to input 'Jane Doe' into field 7 after 3 attempts")
  /\ count_line 286
       (events (run (input_text_with_retry 7 "Jane Doe" default_max_retries)
                    (Scenario.page_reading_back "Jane Do"))) = 3.
Proof. split; vm_compute; reflexivity. Qed.



Example chain_falls_through_to_typing :
  res (run (custom_select_dropdown_option 3 "Yes") (Scenario.page_reading_back ""))
  = Val (result_content "Selected option 'Yes' using direct typing + enter")
  /\ map ev_line
       (events (run (custom_select_dropdown_option 3 "Yes")
                    (Scenario.page_reading_back "")))
     = ([397; 398; 407; 427; 432; 459; 464]
        ++ flat_map (fun _ => [469; 478]) (seq 0 15)
        ++ flat_map (fun _ => [469; 480]) (seq 0 15)
        ++ [554; 582; 584; 586])%list.
Proof. split; vm_compute; reflexivity. Qed.



Example favorite_color_types_yes :
  choice_for_label "Favorite color" = "Yes"
  /\ existsb (fun e => at_line 464 e
                       && match ev_action e with
                          | ElementType s => String.eqb s "Yes"
                          | _ => false
                          end)
       (events (run (fill_fields_iteratively []) Scenario.color_page)) = true.
Proof. split; vm_compute; reflexivity. Qed.

Lemma incomplete_credentials_fail_witness :
  perform_login_flow Scenario.no_password "LinkedIn" Scenario.linkedin_page 0
  = mkOut (Val (result_error "Credentials incomplete for site linkedin")) []
          ["Credentials incomplete for site linkedin"].
Proof.
  apply (incomplete_credentials_fail Scenario.no_password "LinkedIn"
           (mkCredentials (Some "jane") None) Scenario.linkedin_page 0).
  - vm_compute. reflexivity.
  - right. reflexivity.
Defined.

(** C6, as stated, fails: the site name in the message is lower-cased and
    also stripped of surrounding whitespace. *)
Lemma site_name_is_trimmed :
  sdict_get (PyStr.lower " LinkedIn") (credentials_lower Scenario.no_password)
  = Some (mkCredentials (Some "jane") None)
  /\ res (run (perform_login_flow Scenario.no_password " LinkedIn")
              Scenario.linkedin_page)
     = Val (result_error "Credentials incomplete for site linkedin")
  /\ res (run (perform_login_flow Scenario.no_password " LinkedIn")
              Scenario.linkedin_page)
     <> Val (result_error ("Credentials incomplete for site "
                           ++ PyStr.lower " LinkedIn")).
Proof.
  split; [vm_compute; reflexivity|].
  split; vm_compute; [reflexivity | intros H; discriminate H].
Qed.



Lemma fill_loop_round_budget_witness :
  (exists msg,
      rounds_loop [] 25 0 Scenario.color_page 1
      = mkOut (Val tt)
              [mkEvent 611 discovery_request (discovery_reply [])] [msg])
  /\ res (fill_fields_iteratively [] Scenario.overlay_page 0) = Val tt
  /\ count_line 611 (events (fill_fields_iteratively [] Scenario.overlay_page 0))
     = 25.
Proof.
  destruct (fill_loop_round_budget []) as [_ [Hstop [_ Hstuck]]].
  split.
  - apply (Hstop 24 0%Z Scenario.color_page 1
             (mkResult None (Some (JsonText (JUnfilled (Some [])))) false)).
    + reflexivity.
    + apply discovery_nothing_unfilled with (JUnfilled (Some [])); reflexivity.
  - apply (Hstuck [Scenario.hidden_field] Scenario.overlay_page 0).
    split; [discriminate|]. split; [reflexivity|].
    intros n. exists []. split; [reflexivity|]. repeat constructor.
Defined.

Lemma no_progress_runs_to_budget_witness :
  count_line 611 (events (fill_fields_iteratively [] Scenario.overlay_page 0)) = 25
  /\ res (fill_fields_iteratively [] Scenario.overlay_page 0) = Val tt.
Proof.
  destruct (no_progress_runs_to_budget [] [Scenario.hidden_field]
              Scenario.overlay_page 0) as [Hc [_ [_ Hr]]].
  - split; [discriminate|]. split; [reflexivity|].
    intros n. exists []. split; [reflexivity|]. repeat constructor.
  - exact (conj Hc Hr).
Defined.

(** C5, as stated, fails: discovery answers every round with the same
    single field, no fill is attempted in between, and the loop still
    queries discovery twenty-five times. *)
Lemma no_progress_not_detected :
  let evs := events (run (fill_fields_iteratively []) Scenario.overlay_page) in
  map ev_line (firstn 4 evs) = [611; 718; 611; 718]
  /\ forallb (fun e => negb (at_line 611 e)
                       || match ev_response e with
                          | Ret (PResult r) =>
                              match extracted_content r with
                              | Some (JsonText (JUnfilled (Some [f]))) =>
                                  String.eqb (field_id f) "resume-upload"
                              | _ => false
                              end
                          | _ => false
                          end) evs = true
  /\ count_line 611 evs = 25.
Proof. cbv zeta. split; [|split]; vm_compute; reflexivity. Qed.

Example discovery_not_an_object_raises :
  res (run (fill_fields_iteratively []) Scenario.list_page)
  = Exc "'list' object has no attribute 'get'".
Proof. vm_compute. reflexivity. Qed.
(** ** Further properties: credentials and login *)

Lemma sdict_get_set {V} (k k' : string) (v : V) d :
  sdict_get k (sdict_set k' v d)
  = if String.eqb k k' then Some v else sdict_get k d.
Proof.
  induction d as [|[k0 v0] d IH]; cbn [sdict_set sdict_get].
  - destruct (String.eqb k k'); reflexivity.
  - destruct (String.eqb k' k0) eqn:E0; cbn [sdict_get].
    + apply String.eqb_eq in E0. subst k0.
      destruct (String.eqb k k'); reflexivity.
    + rewrite IH. destruct (String.eqb k k0) eqn:E1; auto.
      apply String.eqb_eq in E1. subst k0.
      rewrite String.eqb_sym in E0. now rewrite E0.
Qed.

Lemma find_app_last {A} (f : A -> bool) l1 l2 :
  find f (l1 ++ l2)%list
  = match find f l1 with Some a => Some a | None => find f l2 end.
Proof.
  induction l1 as [|a l1 IH]; cbn [app find]; [reflexivity|].
  destruct (f a); auto.
Qed.

Lemma credentials_lower_last key data :
  sdict_get key (credentials_lower data) = last_entry_for key data.
Proof.
  unfold credentials_lower, last_entry_for.
  assert (G : forall acc,
             sdict_get key
               (fold_left (fun acc kv => sdict_set (PyStr.lower (fst kv)) (snd kv) acc)
                          data acc)
             = match find (fun kv => String.eqb (PyStr.lower (fst kv)) key) (rev data) with
               | Some kv => Some (snd kv)
               | None => sdict_get key acc
               end).
  { induction data as [|[k0 c0] data IH]; intros acc; cbn [fold_left rev find].
    - reflexivity.
    - rewrite IH, find_app_last.
      destruct (find _ (rev data)); [reflexivity|].
      cbn [find fst snd]. rewrite sdict_get_set, String.eqb_sym.
      destruct (String.eqb (PyStr.lower k0) key); reflexivity. }
  rewrite G. destruct (find _ (rev data)); reflexivity.
Qed.

(** X1.  [get_site_login_credentials] asks nothing of the browser and never
    raises. The site name is stripped and lower-cased and compared with the
    stored names lower-cased; of several stored names that agree up to case,
    the entry stored last is used. A site found gives its username and
    password (empty when missing), kept out of the agent's memory, and writes
    nothing to the log; a site not found gives a failure that lists the stored
    site names, and logs it. *)
Theorem site_credentials_lookup data site_name env n :
  let o := get_site_login_credentials data site_name env n in
  events o = []
  /\ match last_entry_for (PyStr.lower (PyStr.strip site_name)) data with
     | Some creds =>
         res o = Val (mkResult None
                        (Some (JsonText
                                 (JCredentials
                                    (get_default (cred_username creds) "")
                                    (get_default (cred_password creds) ""))))
                        false)
         /\ logs o = []
     | None =>
         exists msg,
           res o = Val (result_error msg) /\ logs o = [msg]
           /\ msg = "No login credentials found for site '" ++ site_name
                    ++ "' (available sites: "
                    ++ PyStr.repr_list (map fst data) ++ ")"
     end.
Proof.
  cbv zeta. unfold get_site_login_credentials.
  rewrite credentials_lower_last.
  destruct (last_entry_for _ data) as [creds|]; mred.
  - auto.
  - split; [reflexivity|]. eexists. repeat split.
Qed.

Lemma login_lookup data site_name env n :
  perform_login_flow data site_name env n
  = match last_entry_for (site_key site_name) data with
    | None =>
        let msg := "No login credentials found for site '" ++ site_key site_name
                   ++ "' (available sites: "
                   ++ PyStr.repr_list (map fst data) ++ ")" in
        mkOut (Val (result_error msg)) [] [msg]
    | Some creds =>
        let username := get_default (cred_username creds) "" in
        let password := get_default (cred_password creds) "" in
        (if negb (PyStr.truthy username) || negb (PyStr.truthy password) then
           let msg := "Credentials incomplete for site " ++ site_key site_name in
           logger_info msg ;;;
           ret (result_error msg)
         else
           logger_info ("Attempting to login to " ++ site_key site_name
                        ++ " with user '" ++ username ++ "'") ;;;
           page <- call 184 GetCurrentPage ;;
           if String.eqb (site_key site_name) "linkedin" then
             linkedin_login page username password
           else if String.eqb (site_key site_name) "indeed" then
             indeed_login page username password
           else
             let msg := "No specialized login flow for site: "
                        ++ site_key site_name in
             logger_info msg ;;;
             ret (result_error msg)) env n
    end.
Proof.
  unfold perform_login_flow, get_site_login_credentials.
  fold (site_key site_name). rewrite lookup_key_normal, credentials_lower_last.
  destruct (last_entry_for _ data) as [creds|].
  - mred. cbn [has_error error extracted_content json_loads json_username json_password].
    mred. rewrite ?Nat.add_0_r.
    destruct (PyStr.truthy (get_default (cred_username creds) ""));
      destruct (PyStr.truthy (get_default (cred_password creds) ""));
      cbn [negb orb]; mred; rewrite ?Nat.add_0_r; try reflexivity.
    destruct (env n GetCurrentPage) as [page|m]; try reflexivity.
    destruct (String.eqb (site_key site_name) "linkedin").
    { match goal with |- context [linkedin_login ?a ?b ?c ?d ?e] =>
        destruct (linkedin_login a b c d e) as [[?|?] ? ?] end; reflexivity. }
    destruct (String.eqb (site_key site_name) "indeed").
    { match goal with |- context [indeed_login ?a ?b ?c ?d ?e] =>
        destruct (indeed_login a b c d e) as [[?|?] ? ?] end; reflexivity. }
    reflexivity.
  - mred. cbn [has_error error result_error PyStr.truthy].
    set (msg := ("No login credentials found for site '" ++ _)%string).
    assert (T : PyStr.truthy msg = true) by reflexivity.
    rewrite T. reflexivity.
Qed.

(** X2.  No credentials stored for the site: the lookup's failure is passed up
    unchanged, before any request to the browser. *)
Theorem login_without_stored_site data site_name env n :
  last_entry_for (site_key site_name) data = None ->
  let msg := "No login credentials found for site '" ++ site_key site_name
             ++ "' (available sites: " ++ PyStr.repr_list (map fst data) ++ ")" in
  perform_login_flow data site_name env n
  = mkOut (Val (result_error msg)) [] [msg].
Proof.
  intros H. rewrite login_lookup, H. reflexivity.
Qed.






(** X5.  Complete credentials stored for a site other than LinkedIn and
    Indeed: the page is requested once and the flow returns the failure [No
    specialized login flow for site], with nothing filled or clicked. *)
Theorem login_unsupported_site data site_name creds page env n :
  last_entry_for (site_key site_name) data = Some creds ->
  PyStr.truthy (get_default (cred_username creds) "") = true ->
  PyStr.truthy (get_default (cred_password creds) "") = true ->
  site_key site_name <> "linkedin" ->
  site_key site_name <> "indeed" ->
  env n GetCurrentPage = Ret page ->
  let o := perform_login_flow data site_name env n in
  res o = Val (result_error ("No specialized login flow for site: "
                             ++ site_key site_name))
  /\ events o = [mkEvent 184 GetCurrentPage (Ret page)].
Proof.
  intros Hget Hu Hp Hl Hi Hpage. cbv zeta.
  rewrite login_lookup, Hget. cbv zeta. rewrite Hu, Hp. cbn [negb orb].
  apply String.eqb_neq in Hl, Hi. rewrite Hl, Hi.
  mred. rewrite ?Nat.add_0_r, Hpage. split; reflexivity.
Qed.

(** ** Further properties: resume upload *)

Section UploadScan.

Variable full : string.
Variable body : nat -> M (option ActionResult).
Hypothesis body_spec : forall i env k,
  exists x lg,
    body i env k
    = mkOut (Val x)
            [mkEvent 372 (InputSetInputFiles i full)
                     (env k (InputSetInputFiles i full))] lg
    /\ match env k (InputSetInputFiles i full) with
       | Ret _ => exists r, x = Some r /\ error r = None
       | Raise _ => x = None
       end.

Lemma scan_loop l : forall env k,
  exists x evs lg,
    for_each l body env k = mkOut (Val x) evs lg
    /\ map ev_action evs
       = map (fun i => InputSetInputFiles i full) (firstn (List.length evs) l)
    /\ forallb (at_line 372) evs = true
    /\ forallb (fun e => negb (answered e)) (removelast evs) = true
    /\ match x with
       | Some r => error r = None /\ existsb answered evs = true
       | None => existsb answered evs = false
       end.
Proof.
  induction l as [|i l IH]; intros env k.
  - exists None, [], []. cbn. auto.
  - cbn [for_each]. unfold bind at 1.
    destruct (body_spec i env k) as [x [lg [-> Hx]]].
    destruct (env k (InputSetInputFiles i full)) as [v|m] eqn:E.
    + destruct Hx as [r [-> Hr]]. mred.
      exists (Some r). do 2 eexists. split; [reflexivity|].
      cbn. auto.
    + subst x. cbn [List.length].
      destruct (IH env (k + 1)) as [x [evs [lg' [-> [Ha [Hl [Hu Hx]]]]]]].
      exists x. do 2 eexists. split; [reflexivity|].
      cbn [app List.length firstn map ev_action forallb existsb at_line ev_line
           Nat.eqb andb orb answered ev_response].
      rewrite Ha. split; [reflexivity|]. split; [exact Hl|].
      split.
      * destruct evs as [|e evs]; [reflexivity|].
        change (removelast (?a :: e :: evs)) with (a :: removelast (e :: evs)).
        cbn [forallb answered ev_response negb andb]. exact Hu.
      * exact Hx.
Qed.

End UploadScan.

Lemma scan_indices_of full l evs :
  map ev_action evs = map (fun i => InputSetInputFiles i full) l ->
  scan_indices evs = l /\ uploaded_paths evs = repeat full (List.length l).
Proof.
  revert l. induction evs as [|e evs IH]; intros [|i l] H; try discriminate.
  - auto.
  - cbn [map] in H. inversion H as [[He Ht]].
    destruct (IH l Ht) as [H1 H2].
    unfold scan_indices, uploaded_paths in *. cbn [flat_map List.length repeat].
    rewrite He, H1, H2. auto.
Qed.

Lemma forallb_removelast_app {A} (p : A -> bool) pre l :
  forallb p pre = true ->
  forallb p (removelast l) = true ->
  forallb p (removelast (pre ++ l)) = true.
Proof.
  intros Hp Hl. destruct l as [|a l].
  - rewrite app_nil_r. clear Hl. induction pre as [|b pre IH]; [reflexivity|].
    cbn [forallb] in Hp. apply andb_true_iff in Hp. destruct Hp as [Hb Hp].
    destruct pre as [|c pre]; [reflexivity|].
    change (removelast (b :: c :: pre)) with (b :: removelast (c :: pre)).
    cbn [forallb]. rewrite Hb. auto.
  - rewrite removelast_app by discriminate.
    rewrite forallb_app, Hp, Hl. reflexivity.
Qed.





Ltac ustep :=
  first
    [ mstep
    | match goal with
      | |- context [match dict_get ?i ?m with Some _ => _ | None => _ end] =>
          destruct (dict_get i m) eqn:?
      end ].

Ltac scan_body_spec :=
  let i := fresh "i" in let e := fresh "env" in let k := fresh "k" in
  intros i e k; cbv beta; rewrite ?Nat.add_0_r;
  match goal with
  | |- context [e k ?a] => destruct (e k a)
  end; do 2 eexists; (split; [reflexivity|]); eauto.

Ltac scan_step :=
  match goal with
  | |- context [PathIsFile ?f] =>
      match goal with
      | |- context [for_each ?l ?b ?e ?j] =>
          let Hb := fresh "Hb" in
          let x := fresh "x" in let evs := fresh "evs" in
          let lg := fresh "lg" in
          let Ha := fresh "Ha" in let Hl := fresh "Hl" in
          let Hu := fresh "Hu" in let Hx := fresh "Hx" in
          let H := fresh "H" in
          assert (Hb : forall i env k,
            exists x lg,
              b i env k
              = mkOut (Val x)
                  [mkEvent 372 (InputSetInputFiles i f)
                           (env k (InputSetInputFiles i f))] lg
              /\ match env k (InputSetInputFiles i f) with
                 | Ret _ => exists r, x = Some r /\ error r = None
                 | Raise _ => x = None
                 end) by scan_body_spec;
          destruct (scan_loop f b Hb l e j) as [x [evs [lg [H [Ha [Hl [Hu Hx]]]]]]];
          rewrite H; clear H Hb; mred
      end
  end.




Ltac upload_guard_leaf :=
  intros ->; cbn [res events]; rewrite ?app_nil_r;
  split;
  [ intros; try (split; reflexivity);
    repeat match goal with
           | H : truthy ?v = false, H' : context [truthy ?v] |- _ =>
               rewrite H in H'; discriminate H'
           end
  | let e := fresh "e" in let Hin := fresh "Hin" in
    let Hline := fresh "Hline" in
    intros e Hin Hline;
    first
      [ solve [ cbn [In] in Hin;
                repeat (destruct Hin as [<- | Hin];
                        [cbn [ev_line] in Hline; lia|]);
                contradiction ]
      | clear e Hin Hline;
        match goal with
        | Hr : _ _ (PathResolve ?s) = Ret (PStr ?f),
          Hf : _ _ (PathIsFile ?f) = Ret ?v,
          Ht : (if truthy ?v then false else true) = false |- _ =>
            exists s, f, v;
            split; [assumption|];
            split; [reflexivity|];
            split; [destruct (truthy v); [reflexivity | discriminate Ht]|];
            let p := fresh "p" in let Hp := fresh "Hp" in
            intros p Hp;
            cbn [uploaded_paths flat_map ev_action app In] in Hp;
            repeat (destruct Hp as [<- | Hp]; [reflexivity|]);
            try contradiction
        end ] ].

(** X7.  [upload_resume_file] touches the page only for a resume file it has
    checked. Without a resume path in the candidate data it returns a failure
    with no request at all. Any request from line 342 on (the page, its
    elements, its file inputs) comes after [Path(...).resolve()] on the
    configured path and a truthy [is_file()] on the resolved path, and every
    path handed to a file input is that resolved path. *)
Theorem upload_only_checked_file cand index env n :
  let o := upload_resume_file cand index env n in
  (truthy (dict_get_default "resume_file_path" cand PNone) = false ->
   res o = Val (result_error "No resume_file_path in candidate data.")
   /\ events o = [])
  /\ (forall e, In e (events o) -> 342 <= ev_line e ->
      exists path full v,
        sdict_get "resume_file_path" cand = Some (PStr path)
        /\ firstn 2 (events o)
           = [mkEvent 336 (PathResolve path) (Ret (PStr full));
              mkEvent 337 (PathIsFile full) (Ret v)]
        /\ truthy v = true
        /\ forall p, In p (uploaded_paths (events o)) -> p = full).
Proof.
  cbv zeta. remember (upload_resume_file cand index env n) as o eqn:Ho.
  revert Ho.
  unfold upload_resume_file, as_str, as_selector_map, as_handles.
  destruct (dict_get_default "resume_file_path" cand PNone) as
    [ | b | z | s | | u | h | sm | st | ar ] eqn:Hpath.
  4:{ assert (Hsd : sdict_get "resume_file_path" cand = Some (PStr s)).
      { unfold dict_get_default in Hpath.
        destruct (sdict_get "resume_file_path" cand); congruence. }
      repeat ustep; mred; try scan_step.
      all: try (match goal with x : option ActionResult |- _ => destruct x end; mred).
      all: try solve [upload_guard_leaf].
      all: upload_guard_leaf.
      all: match goal with
           | Ha : map ev_action ?evs = map _ _, Hp : In _ _ |- _ =>
               change (In p (uploaded_paths evs)) in Hp;
               rewrite (proj2 (scan_indices_of _ _ _ Ha)) in Hp;
               exact (repeat_spec _ _ _ Hp)
           end. }
  all: repeat ustep; mred; upload_guard_leaf.
Qed.

(** ** Further properties: custom dropdown *)


Lemma scroll_footprint text : only_lines after_open (scroll_approach text).
Proof.
  unfold scroll_approach, click_option, sleep, logger_debug. footprint.
Qed.

Lemma typing_footprint index text :
  only_lines after_open (direct_typing index text).
Proof. unfold direct_typing, sleep. footprint. Qed.




(** ** Further properties: text input *)

Lemma attempt_steps_nested_app evs1 evs2 :
  attempt_steps_nested evs1 -> attempt_steps_nested evs2 ->
  attempt_steps_nested (evs1 ++ evs2).
Proof.
  unfold attempt_steps_nested. rewrite !count_line_app. lia.
Qed.

Lemma typed_texts_app evs1 evs2 :
  typed_texts (evs1 ++ evs2) = (typed_texts evs1 ++ typed_texts evs2)%list.
Proof. unfold typed_texts. apply flat_map_app. Qed.

Lemma input_attempt_discipline index text max_retries dom attempt env n :
  exists x evs lg,
    input_attempt index text max_retries dom attempt env n = mkOut (Val x) evs lg
    /\ attempt_steps_nested evs
    /\ Forall (eq text) (typed_texts evs).
Proof.
  unfold input_attempt. repeat mstep; mred;
    (do 3 eexists; split; [reflexivity|]; split;
     [unfold attempt_steps_nested, count_line;
      cbn [filter at_line ev_line Nat.eqb List.length]; lia
     | cbn [typed_texts flat_map ev_action app]; repeat constructor]).
Qed.

Lemma attempts_loop_discipline index text max_retries dom xs : forall env n,
  exists x evs lg,
    for_each xs (input_attempt index text max_retries dom) env n
    = mkOut (Val x) evs lg
    /\ attempt_steps_nested evs
    /\ Forall (eq text) (typed_texts evs).
Proof.
  induction xs as [|a xs IH]; intros env n.
  - exists None, [], []. cbn. repeat split; auto.
  - cbn [for_each]. unfold bind at 1.
    destruct (input_attempt_discipline index text max_retries dom a env n)
      as [x1 [evs1 [lg1 [-> [Hn1 Ht1]]]]].
    destruct x1 as [r1|].
    + mred. rewrite !app_nil_r. eauto 8.
    + destruct (IH env (n + List.length evs1)) as [x [evs [lg [-> [Hn Ht]]]]].
      do 3 eexists. split; [reflexivity|]. split.
      * now apply attempt_steps_nested_app.
      * rewrite typed_texts_app. apply Forall_app. auto.
Qed.

Lemma input_text_types_given_text index text max_retries env n :
  Forall (eq text)
    (typed_texts (events (input_text_with_retry index text max_retries env n))).
Proof.
  remember (input_text_with_retry index text max_retries env n) as o eqn:Ho.
  revert Ho. unfold input_text_with_retry, as_selector_map.
  repeat ustep; mred;
    try match goal with
    | |- context [for_each ?l (input_attempt _ _ _ ?d) ?e ?j] =>
        destruct (attempts_loop_discipline index text max_retries d l e j)
          as [x [evs [lg [-> [Hn Ht]]]]]; destruct x; mred
    end;
    intros ->; cbn [events]; rewrite ?app_nil_r;
    cbn [typed_texts flat_map ev_action app]; auto.
Qed.


(** ** Further properties: container scroll *)


Lemma forallb_removelast {A} (p : A -> bool) l :
  forallb p l = true -> forallb p (removelast l) = true.
Proof.
  intros H. apply (forallb_removelast_app p l []) in H; [|reflexivity].
  now rewrite app_nil_r in H.
Qed.




(** ** Further properties: filling one field *)

Lemma only_lines_weaken {A} (p q : nat -> bool) (m : M A) :
  (forall l, p l = true -> q l = true) -> only_lines p m -> only_lines q m.
Proof.
  intros Hpq Hm env k. specialize (Hm env k).
  rewrite forallb_forall in *. intros e He. auto.
Qed.

Lemma input_text_before_dropdown index text max_retries :
  only_lines before_dropdown (input_text_with_retry index text max_retries).
Proof.
  unfold input_text_with_retry, input_attempt, as_selector_map, py_strip,
    attribute_error, sleep.
  footprint.
Qed.

Lemma upload_before_dropdown candidate index :
  only_lines before_dropdown (upload_resume_file candidate index).
Proof.
  unfold upload_resume_file, as_selector_map, as_str, as_handles, sleep.
  footprint.
Qed.

Lemma custom_select_dropdown_lines index text :
  only_lines dropdown_line (custom_select_dropdown_option index text).
Proof.
  unfold custom_select_dropdown_option, keyboard_navigation, poll_highlighted,
    scroll_approach, click_option, direct_typing, as_selector_map, py_lower,
    attribute_error, sleep, logger_debug.
  footprint.
Qed.

Lemma execute_input candidate line params :
  execute_action candidate line "input_text_with_retry" params
  = (index <- param_int "index" params ;;
     text <- param_str "text" params ;;
     input_text_with_retry index text default_max_retries).
Proof. reflexivity. Qed.

Lemma execute_custom candidate line params :
  execute_action candidate line "custom_select_dropdown_option" params
  = (index <- param_int "index" params ;;
     text <- param_str "text" params ;;
     custom_select_dropdown_option index text).
Proof. reflexivity. Qed.

Lemma execute_upload candidate line params :
  execute_action candidate line "upload_resume_file" params
  = (index <- param_int "index" params ;;
     upload_resume_file candidate index).
Proof. reflexivity. Qed.

Lemma execute_select candidate line params :
  execute_action candidate line "select_dropdown_option" params
  = (r <- call line (ExecuteAction "select_dropdown_option" params) ;;
     as_result r).
Proof. reflexivity. Qed.

Lemma execute_click candidate line params :
  execute_action candidate line "click_element" params
  = (r <- call line (ExecuteAction "click_element" params) ;; as_result r).
Proof. reflexivity. Qed.

Lemma execute_track candidate line params :
  execute_action candidate line "track_form_changes" params
  = (r <- call line (ExecuteAction "track_form_changes" params) ;;
     as_result r).
Proof. reflexivity. Qed.

Lemma param_int_head k z rest :
  param_int k ((k, PInt z) :: rest) = ret z.
Proof. unfold param_int. cbn [sdict_get]. now rewrite String.eqb_refl. Qed.

Lemma param_str_text v t :
  param_str "text" [("index", v); ("text", t)]
  = match t with
    | PStr s => ret s
    | _ => raise "Invalid parameter text"
    end.
Proof. destruct t; reflexivity. Qed.

Ltac fstep :=
  first
    [ match goal with
      | |- context [execute_action _ _ "input_text_with_retry" _] =>
          rewrite execute_input
      | |- context [execute_action _ _ "custom_select_dropdown_option" _] =>
          rewrite execute_custom
      | |- context [execute_action _ _ "upload_resume_file" _] =>
          rewrite execute_upload
      | |- context [execute_action _ _ "select_dropdown_option" _] =>
          rewrite execute_select
      | |- context [execute_action _ _ "click_element" _] =>
          rewrite execute_click
      | |- context [execute_action _ _ "track_form_changes" _] =>
          rewrite execute_track
      | |- context [param_int _ _] => rewrite param_int_head
      | |- context [param_str _ _] => rewrite param_str_text
      end
    | match goal with
      | |- context [input_text_with_retry ?i ?t ?r ?e ?j] =>
          let H := fresh "Hfoot" in
          let Ht := fresh "Htyped" in
          pose proof (input_text_before_dropdown i t r e j) as H;
          pose proof (input_text_types_given_text i t r e j) as Ht;
          destruct (input_text_with_retry i t r e j) as [[?a|?m] ?evs ?lg];
          cbn [events] in H, Ht
      | |- context [custom_select_dropdown_option ?i ?t ?e ?j] =>
          let H := fresh "Hdrop" in
          pose proof (custom_select_dropdown_lines i t e j) as H;
          destruct (custom_select_dropdown_option i t e j) as [[?a|?m] ?evs ?lg];
          cbn [events] in H
      | |- context [upload_resume_file ?c ?i ?e ?j] =>
          let H := fresh "Hfoot" in
          pose proof (upload_before_dropdown c i e j) as H;
          destruct (upload_resume_file c i e j) as [[?a|?m] ?evs ?lg];
          cbn [events] in H
      | |- context [match first_match ?a ?b ?c with Some _ => _ | None => _ end] =>
          destruct (first_match a b c) eqn:?
      end
    | progress unfold as_result
    | mstep ].

Ltac split_in H :=
  repeat match type of H with
         | In _ (_ :: _) => destruct H as [<- | H]
         | In _ (_ ++ _)%list => apply in_app_or in H; destruct H as [H | H]
         | In _ [] => destruct H
         end.

Lemma count_line_cons l e evs :
  count_line l (e :: evs)
  = (if Nat.eqb (ev_line e) l then 1 else 0) + count_line l evs.
Proof.
  unfold count_line. cbn [filter]. unfold at_line.
  destruct (Nat.eqb (ev_line e) l); reflexivity.
Qed.

Lemma count_line_outside (p : nat -> bool) l evs :
  forallb (fun e => p (ev_line e)) evs = true -> p l = false ->
  count_line l evs = 0.
Proof.
  intros H Hl. induction evs as [|e evs IH]; [reflexivity|].
  cbn [forallb] in H. apply andb_true_iff in H. destruct H as [He H].
  rewrite count_line_cons, IH by exact H.
  destruct (Nat.eqb (ev_line e) l) eqn:E; [|reflexivity].
  apply Nat.eqb_eq in E. congruence.
Qed.

Ltac not_dropdown_event :=
  match goal with
  | Hl : dropdown_line (ev_line (mkEvent _ _ _)) = true |- _ =>
      discriminate Hl
  | Hl : dropdown_line (ev_line ?e) = true, Hin : In ?e ?evs,
    Hf : forallb (fun e => before_dropdown (ev_line e)) ?evs = true |- _ =>
      rewrite forallb_forall in Hf; specialize (Hf e Hin);
      unfold before_dropdown in Hf; unfold dropdown_line in Hl;
      apply Nat.ltb_lt in Hf; apply andb_true_iff in Hl;
      destruct Hl as [Hl _]; apply Nat.leb_le in Hl; lia
  end.

Ltac count_lines :=
  repeat first [rewrite count_line_app | rewrite count_line_cons];
  repeat match goal with
         | H : forallb (fun e => _ (ev_line e)) ?evs = true
           |- context [count_line ?l ?evs] =>
             rewrite (count_line_outside _ l evs H) by reflexivity
         end;
  cbn [ev_line Nat.eqb count_line filter List.length]; lia.

Ltac typed_leaf :=
  let Htype := fresh "Htype" in let s := fresh "s" in let Hs := fresh "Hs" in
  intros Htype s Hs;
  first
    [ congruence
    | inversion Hs; subst;
      rewrite ?typed_texts_app; cbn [typed_texts flat_map ev_action app];
      rewrite ?app_nil_r; first [assumption | constructor] ].

Ltac fill_leaf :=
  do 3 eexists; (split; [reflexivity|]); rewrite ?app_nil_r;
  split; [count_lines|]; split; [count_lines|]; split; [typed_leaf|];
  let e := fresh "e" in let Hin := fresh "Hin" in let Hl := fresh "Hl" in
  intros e Hin Hl; split_in Hin;
  first
    [ not_dropdown_event
    | do 3 eexists; split; [left; reflexivity | assumption] ].

Lemma fill_field_trace candidate f env k :
  exists r rest lg,
    fill_field candidate f env k
    = mkOut r (mkEvent 718 GetState (env k GetState) :: rest) lg
    /\ count_line 718 rest = 0
    /\ count_line 707 rest <= 1
    /\ (str_in (PyStr.lower (field_type f)) ["text"; "textarea"] = true ->
        forall s,
          text_for_label candidate (get_default (field_label f) "") = PStr s ->
          Forall (eq s) (typed_texts rest))
    /\ forall e, In e rest -> dropdown_line (ev_line e) = true ->
         exists index choice r0,
           In (mkEvent 678 (ExecuteAction "select_dropdown_option"
                              [("index", PInt index); ("value", PStr choice)])
                       (Ret (PResult r0))) rest
           /\ has_error r0 = true.
Proof.
  unfold fill_field, find_highlight_index_for_field, state_selector_map.
  mred. rewrite ?Nat.add_0_r.
  destruct (env k GetState) as [st|m] eqn:Est; mred; [|fill_leaf].
  destruct st; mred; try solve [fill_leaf].
  destruct (first_match _ _ _) as [hi|]; mred; [|fill_leaf].
  repeat fstep; mred; fill_leaf.
Qed.

(** X11.  Within the filling of one field, the custom dropdown action runs
    only as a fallback: any of its requests is preceded by a native
    [select_dropdown_option] request for the same field whose answer carried
    an error. *)
Theorem custom_dropdown_only_after_native_error candidate f env k :
  let o := fill_field candidate f env k in
  forall e, In e (events o) -> dropdown_line (ev_line e) = true ->
    exists index choice r,
      In (mkEvent 678 (ExecuteAction "select_dropdown_option"
                         [("index", PInt index); ("value", PStr choice)])
                  (Ret (PResult r))) (events o)
      /\ has_error r = true.
Proof.
  cbv zeta.
  destruct (fill_field_trace candidate f env k) as [r [rest [lg [-> [_ [_ [_ H]]]]]]].
  cbn [events]. intros e [<- | Hin] Hl; [discriminate Hl|].
  destruct (H e Hin Hl) as [index [choice [r0 [Hin0 Hr0]]]].
  exists index, choice, r0. split; [right; exact Hin0 | exact Hr0].
Qed.

(** X12.  In one round of the fill loop the page state is read afresh for
    every field: the state requests (line 718) number at most the fields of
    the round, exactly that many when the round completes; and
    [track_form_changes] (line 707) is requested at most once per field looked
    up. *)
Theorem fill_round_reads_state_per_field candidate fields env k :
  let o := for_in fields (fill_field candidate) env k in
  count_line 718 (events o) <= List.length fields
  /\ (res o = Val tt -> count_line 718 (events o) = List.length fields)
  /\ count_line 707 (events o) <= count_line 718 (events o).
Proof.
  revert env k. induction fields as [|f fields IH]; intros env k; cbv zeta.
  - cbn. auto.
  - cbn [for_in]. unfold bind.
    destruct (fill_field_trace candidate f env k)
      as [r [rest [lg [-> [H718 [H707 _]]]]]].
    destruct r as [[]|m].
    + specialize (IH env (k + List.length (mkEvent 718 GetState (env k GetState) :: rest))).
      cbv zeta in IH.
      destruct (for_in fields (fill_field candidate) env _) as [r2 evs2 lg2].
      cbn [res events List.length] in *.
      rewrite !count_line_app, !count_line_cons. cbn [ev_line Nat.eqb].
      destruct IH as [I1 [I2 I3]].
      split; [lia|]. split; [intros Hr; specialize (I2 Hr); lia | lia].
    + cbn [res events List.length]. rewrite !count_line_cons.
      cbn [ev_line Nat.eqb]. split; [lia|]. split; [discriminate | lia].
Qed.

(** X13.  A text field is only ever typed the value chosen from its label: for
    a field of type text or textarea, every text typed into the page while the
    field is filled is the string picked by the label's keyword (the
    candidate's name, email, phone or address, or the placeholder). *)
Theorem text_field_gets_value_for_label candidate f s env k :
  str_in (PyStr.lower (field_type f)) ["text"; "textarea"] = true ->
  text_for_label candidate (get_default (field_label f) "") = PStr s ->
  Forall (eq s) (typed_texts (events (fill_field candidate f env k))).
Proof.
  intros Htype Hs.
  destruct (fill_field_trace candidate f env k)
    as [r [rest [lg [-> [_ [_ [H _]]]]]]].
  cbn [events typed_texts flat_map ev_action app]. exact (H Htype s Hs).
Qed.

(** ** Further properties: the application run *)

Import Session.

Section SessionFootprint.

Context {p : nat -> bool}.

Lemma sonly_ret {A} (a : A) : sonly_lines p (sret a).
Proof. intros env n ag. reflexivity. Qed.

Lemma sonly_raise {A} msg : sonly_lines p (@sraise A msg).
Proof. intros env n ag. reflexivity. Qed.

Lemma sonly_log msg : sonly_lines p (slog msg).
Proof. intros env n ag. reflexivity. Qed.

Lemma sonly_set v : sonly_lines p (set_agent v).
Proof. intros env n ag. reflexivity. Qed.

Lemma sonly_call line a : p line = true -> sonly_lines p (scall line a).
Proof. intros H env n ag. cbn. now rewrite H. Qed.

Lemma sonly_bind {A B} (m : SessionM A) (f : A -> SessionM B) :
  sonly_lines p m -> (forall a, sonly_lines p (f a)) ->
  sonly_lines p (sbind m f).
Proof.
  intros Hm Hf env n ag. unfold sbind. specialize (Hm env n ag).
  destruct (m env n ag) as [[a|e] ag1 evs lg]; cbn [sevents] in *; auto.
  specialize (Hf a env (n + List.length evs) ag1).
  destruct (f a env (n + List.length evs) ag1) as [r ag2 evs' lg'].
  cbn [sevents] in *. rewrite forallb_app, Hm, Hf. reflexivity.
Qed.

Lemma sonly_lift {A} (m : M A) : only_lines p m -> sonly_lines p (lift m).
Proof.
  intros Hm env n ag. unfold lift.
  specialize (Hm (fun k a => env k (Core a)) n).
  destruct (m _ n) as [r evs lg]. cbn [sevents events] in *.
  rewrite forallb_forall in *. intros e He.
  apply in_map_iff in He. destruct He as [e0 [<- He0]]. cbn. auto.
Qed.

Lemma sonly_for_each {A R} (xs : list A) (body : A -> SessionM (option R)) :
  (forall x, sonly_lines p (body x)) -> sonly_lines p (sfor_each xs body).
Proof.
  intros Hb. induction xs as [|x xs IH]; cbn [sfor_each].
  - apply sonly_ret.
  - apply sonly_bind; auto. intros [r|]; auto. apply sonly_ret.
Qed.

End SessionFootprint.

Lemma rounds_loop_body_lines candidate remaining : forall round_count,
  only_lines body_line (rounds_loop candidate remaining round_count).
Proof.
  induction remaining as [|remaining IH]; intros round_count;
    cbn [rounds_loop]; [apply only_ret|].
  unfold execute_action, fill_field, execute_action,
    find_highlight_index_for_field, json_unfilled_fields.
  footprint; try apply IH.
  all: try (unfold input_text_with_retry, input_attempt; footprint).
  all: try (unfold custom_select_dropdown_option, keyboard_navigation,
            poll_highlighted, scroll_approach, click_option, direct_typing;
            footprint).
  all: try (unfold upload_resume_file; footprint).
Qed.

Lemma fill_fields_body_lines candidate :
  only_lines body_line (fill_fields_iteratively candidate).
Proof.
  unfold fill_fields_iteratively. apply only_bind.
  - apply rounds_loop_body_lines.
  - intros _. apply only_logger.
Qed.

Section KeepsAgent.

Lemma keeps_ret {A} (a : A) : keeps_agent (sret a).
Proof. intros env n ag. reflexivity. Qed.

Lemma keeps_log msg : keeps_agent (slog msg).
Proof. intros env n ag. reflexivity. Qed.

Lemma keeps_call line a : keeps_agent (scall line a).
Proof. intros env n ag. reflexivity. Qed.

Lemma keeps_lift {A} (m : M A) : keeps_agent (lift m).
Proof. intros env n ag. unfold lift. destruct (m _ n); reflexivity. Qed.

Lemma keeps_bind {A B} (m : SessionM A) (f : A -> SessionM B) :
  keeps_agent m -> (forall a, keeps_agent (f a)) -> keeps_agent (sbind m f).
Proof.
  intros Hm Hf env n ag. unfold sbind. specialize (Hm env n ag).
  destruct (m env n ag) as [[a|e] ag1 evs lg]; cbn [sagent] in *; auto.
  specialize (Hf a env (n + List.length evs) ag1).
  destruct (f a env (n + List.length evs) ag1) as [r ag2 evs' lg'].
  cbn [sagent] in *. congruence.
Qed.

Lemma keeps_for_each {A R} (xs : list A) (body : A -> SessionM (option R)) :
  (forall x, keeps_agent (body x)) -> keeps_agent (sfor_each xs body).
Proof.
  intros Hb. induction xs as [|x xs IH]; cbn [sfor_each].
  - apply keeps_ret.
  - apply keeps_bind; auto. intros [r|]; auto. apply keeps_ret.
Qed.

End KeepsAgent.

Section RunProofs.

Variable shallow_text : DomElement -> string.

Lemma click_if_submit_lines item :
  sonly_lines body_line (click_if_submit shallow_text item)
  /\ keeps_agent (click_if_submit shallow_text item).
Proof.
  unfold click_if_submit.
  destruct (looks_like_submit _); split;
    repeat first [ apply sonly_bind; [|intros ?] | apply sonly_log
                 | apply sonly_call; reflexivity | apply sonly_ret
                 | apply keeps_bind; [|intros ?] | apply keeps_log
                 | apply keeps_call | apply keeps_ret ].
Qed.

Lemma submit_if_found_lines :
  sonly_lines body_line (submit_if_found shallow_text)
  /\ keeps_agent (submit_if_found shallow_text).
Proof.
  unfold submit_if_found. split.
  - apply sonly_bind; [apply sonly_call; reflexivity|]. intros st.
    apply sonly_bind; [apply sonly_lift; unfold state_selector_map; footprint|].
    intros sm. apply sonly_bind; [|intros; apply sonly_ret].
    apply sonly_for_each. intros x. apply click_if_submit_lines.
  - apply keeps_bind; [apply keeps_call|]. intros st.
    apply keeps_bind; [apply keeps_lift|]. intros sm.
    apply keeps_bind; [|intros; apply keeps_ret].
    apply keeps_for_each. intros x. apply click_if_submit_lines.
Qed.

Lemma apply_to_job_spec job candidate env n ag :
  exists r body lg,
    apply_to_job shallow_text job candidate env n ag
    = mkSOut r
        (match env n (NewAgent job) with
         | Ret _ => Some PObject
         | Raise _ => ag
         end)
        (mkSessionEvent 798 (NewAgent job) (env n (NewAgent job)) :: body) lg
    /\ forallb (fun e => body_line (sev_line e)) body = true
    /\ match env n (NewAgent job) with
       | Ret _ => True
       | Raise m =>
           r = Exc m /\ body = [] /\ lg = []
       end.
Proof.
  unfold apply_to_job.
  set (rest := sbind (scall 808 (AgentRun 50)) _).
  assert (Hl : sonly_lines body_line rest).
  { subst rest. apply sonly_bind; [apply sonly_call; reflexivity|]. intros _.
    apply sonly_bind; [apply sonly_lift, fill_fields_body_lines|]. intros _.
    apply sonly_bind; [apply submit_if_found_lines|]. intros _.
    apply sonly_log. }
  assert (Hk : keeps_agent rest).
  { subst rest. apply keeps_bind; [apply keeps_call|]. intros _.
    apply keeps_bind; [apply keeps_lift|]. intros _.
    apply keeps_bind; [apply submit_if_found_lines|]. intros _.
    apply keeps_log. }
  unfold sbind at 1 2, scall, set_agent. cbn [List.length app].
  destruct (env n (NewAgent job)) as [v|m].
  - specialize (Hl env (n + 1 + 0) (Some PObject)).
    specialize (Hk env (n + 1 + 0) (Some PObject)).
    destruct (rest env (n + 1 + 0) (Some PObject)) as [r ag' evs lg].
    cbn [sevents sagent] in *. subst ag'.
    exists r, evs, lg. auto.
  - exists (Exc m), [], []. auto.
Qed.

End RunProofs.

Ltac sred :=
  cbv beta iota zeta delta
    [sbind sret sraise stry_except stry_finally scall slog set_agent get_agent];
  cbn [app List.length].

(** X14.  [run_job_application] closes what it opened. When creating the
    browser raises, nothing else is requested. Otherwise the agent is created,
    the body of the [try] runs, and the [finally] block follows: with an
    agent, it closes the browser context and then the browser, but when
    closing the context raises the browser is not closed; without an agent, it
    closes the browser only. The function returns normally only if the agent
    was created and both were closed, and an exception raised while closing is
    the one the function raises. *)
Theorem run_closes_what_it_opened shallow_text job candidate env n ag :
  let o := run_job_application shallow_text job candidate env n ag in
  match env n NewBrowser with
  | Raise m =>
      o = mkSOut (Exc m) ag [mkSessionEvent 742 NewBrowser (Raise m)] []
  | Ret browser =>
      exists body closing,
        sevents o
        = mkSessionEvent 742 NewBrowser (Ret browser)
          :: mkSessionEvent 798 (NewAgent job) (env (n + 1) (NewAgent job))
          :: body ++ closing
        /\ forallb (fun e => body_line (sev_line e)) body = true
        /\ closes_properly
             (match env (n + 1) (NewAgent job) with
              | Ret _ => true
              | Raise _ => false
              end) closing = true
        /\ (sres o = Val tt ->
            forallb sanswered closing = true
            /\ exists agent, env (n + 1) (NewAgent job) = Ret agent)
        /\ (forall e m, In e closing -> sev_response e = Raise m ->
              sres o = Exc m)
  end.
Proof.
  cbv zeta. destruct (env n NewBrowser) as [browser|m] eqn:Eb;
    unfold run_job_application; sred; rewrite Eb; [|reflexivity].
  match goal with
  | |- context [apply_to_job _ _ _ env ?k None] =>
      destruct (apply_to_job_spec shallow_text job candidate env k None)
        as [r [body [lg [-> [Hbody Hraise]]]]];
      replace k with (n + 1) in * by lia
  end.
  exists body. unfold close_all. sred.
  destruct (env (n + 1) (NewAgent job)) as [agent|m] eqn:Ea.
  - destruct r as [[]|e]; sred; cbn [truthy];
      repeat match goal with
             | |- context [match ?e ?k ?a with Ret _ => _ | Raise _ => _ end] =>
                 destruct (e k a) eqn:?; sred
             end;
      cbn [sevents sres]; rewrite ?app_nil_r;
      (eexists; split; [cbn [app]; reflexivity|]);
      (split; [exact Hbody|]); (split; [reflexivity|]);
      (split; [intros H; first [discriminate H | split; [reflexivity | eauto]]|]);
      intros ev ? Hin Hev; cbn [In] in Hin;
      repeat match type of Hin with
             | _ \/ _ => destruct Hin as [<- | Hin]
             | False => destruct Hin
             end;
      cbn [sev_response] in Hev; congruence.
  - destruct Hraise as [-> [-> ->]]. sred.
    repeat match goal with
           | |- context [match ?e ?k ?a with Ret _ => _ | Raise _ => _ end] =>
               destruct (e k a) eqn:?; sred
           end;
      cbn [sevents sres];
      (eexists; split; [cbn [app]; reflexivity|]);
      (split; [reflexivity|]); (split; [reflexivity|]);
      (split; [intros H; discriminate H|]);
      intros ev ? Hin Hev; cbn [In] in Hin;
      repeat match type of Hin with
             | _ \/ _ => destruct Hin as [<- | Hin]
             | False => destruct Hin
             end;
      cbn [sev_response] in Hev; congruence.
Qed.

Lemma sfor_each_click shallow_text sm : forall env k ag,
  sfor_each sm (click_if_submit shallow_text) env k ag
  = match first_submit shallow_text sm with
    | Some item =>
        let click := ControllerExecute "click_element"
                       [("index", PInt (fst item))] in
        mkSOut (match env k click with
                | Ret _ => Val (Some tt)
                | Raise m => Exc m
                end) ag
               [mkSessionEvent 820 click (env k click)]
               ["Found potential submit button at index "
                ++ PyStr.of_Z (fst item) ++ ", text: "
                ++ PyStr.lower (shallow_text (snd item))]
    | None => mkSOut (Val None) ag [] []
    end.
Proof.
  induction sm as [|item sm IH]; intros env k ag; [reflexivity|].
  cbn [sfor_each]. unfold first_submit. cbn [find].
  unfold click_if_submit at 1.
  destruct (looks_like_submit (PyStr.lower (shallow_text (snd item)))) eqn:E.
  - sred. rewrite ?Nat.add_0_r.
    destruct (env k (ControllerExecute "click_element" [("index", PInt (fst item))]));
      reflexivity.
  - unfold sbind at 1, sret at 1. cbn [List.length].
    rewrite Nat.add_0_r, IH. unfold first_submit.
    destruct (find _ sm) as [it|]; [|reflexivity].
    cbv zeta.
    destruct (env k (ControllerExecute "click_element" [("index", PInt (fst it))]));
      reflexivity.
Qed.

(** X15.  The submission step clicks at most one element: once the page state
    is read, it clicks the first entry of the selector map, in the map's
    order, whose text contains one of the words submit, apply, send, complete
    or finish (compared in lower case), and nothing else; when no entry does,
    it clicks nothing and returns normally. *)
Theorem submit_clicks_first_candidate shallow_text env n ag :
  let o := submit_if_found shallow_text env n ag in
  count_sline 820 (sevents o) <= 1
  /\ forall sm, env n (Core GetState) = Ret (PState sm) ->
       match first_submit shallow_text sm with
       | Some item =>
           let click := ControllerExecute "click_element"
                          [("index", PInt (fst item))] in
           sevents o
           = [mkSessionEvent 814 (Core GetState) (Ret (PState sm));
              mkSessionEvent 820 click (env (n + 1) click)]
           /\ sres o = match env (n + 1) click with
                       | Ret _ => Val tt
                       | Raise m => Exc m
                       end
       | None =>
           o = mkSOut (Val tt) ag
                 [mkSessionEvent 814 (Core GetState) (Ret (PState sm))] []
       end.
Proof.
  cbv zeta. remember (submit_if_found shallow_text env n ag) as o eqn:Ho.
  revert Ho. unfold submit_if_found.
  unfold sbind at 1, scall at 1. cbn [List.length].
  destruct (env n (Core GetState)) as [st|m].
  2:{ intros ->. split; [cbn; lia | intros sm H; discriminate H]. }
  unfold sbind at 1. unfold lift, state_selector_map, attribute_error.
  destruct st as [ | b | z | s | | u | h | sm0 | sm0 | ar ];
    try (intros ->; split; [cbn; lia | intros sm H; discriminate H]).
  mred. cbn [map List.length app].
  unfold sbind at 1. rewrite sfor_each_click.
  destruct (first_submit shallow_text sm0) as [item|] eqn:Ef.
  - cbv zeta. rewrite ?Nat.add_0_r.
    destruct (env (n + 1) (ControllerExecute "click_element"
                             [("index", PInt (fst item))])) as [v|m] eqn:Ec;
      sred; intros ->; (split; [cbn; lia|]); intros sm H; inversion H; subst sm;
      rewrite Ef; cbv zeta; rewrite Ec; split; reflexivity.
  - sred. intros ->. split; [cbn; lia|]. intros sm H; inversion H; subst sm.
    rewrite Ef. reflexivity.
Qed.


(** ** Instances of the further properties *)

Lemma login_without_stored_site_witness :
  perform_login_flow (Scenario.linkedin_only "s3cret") " Indeed "
    Scenario.linkedin_page 0
  = mkOut (Val (result_error
                  "No login credentials found for site 'indeed' (available sites: ['LinkedIn'])"))
          []
          ["No login credentials found for site 'indeed' (available sites: ['LinkedIn'])"].
Proof.
  apply (login_without_stored_site (Scenario.linkedin_only "s3cret") " Indeed "
           Scenario.linkedin_page 0).
  vm_compute. reflexivity.
Defined.



Lemma login_unsupported_site_witness :
  res (perform_login_flow Cases.glassdoor_only "Glassdoor"
         Scenario.linkedin_page 0)
  = Val (result_error "No specialized login flow for site: glassdoor")
  /\ events (perform_login_flow Cases.glassdoor_only "Glassdoor"
               Scenario.linkedin_page 0)
     = [mkEvent 184 GetCurrentPage (Ret (PPage "https://www.linkedin.com/login"))].
Proof.
  apply (login_unsupported_site Cases.glassdoor_only "Glassdoor"
           (mkCredentials (Some "jane") (Some "s3cret"))
           (PPage "https://www.linkedin.com/login") Scenario.linkedin_page 0).
  - vm_compute. reflexivity.
  - reflexivity.
  - reflexivity.
  - vm_compute. intros H. discriminate H.
  - vm_compute. intros H. discriminate H.
  - reflexivity.
Defined.


Lemma upload_only_checked_file_witness :
  Forall (eq "/home/jane/cv.pdf")
    (uploaded_paths
       (events (upload_resume_file Cases.candidate 9 Cases.upload_page 0))).
Proof.
  destruct (upload_only_checked_file Cases.candidate 9 Cases.upload_page 0)
    as [_ H].
  destruct (H (mkEvent 342 GetCurrentPage (Ret (PPage "https://jobs.example/apply"))))
    as [path [full [v [_ [Hfirst [_ Hall]]]]]].
  - vm_compute. right. right. left. reflexivity.
  - vm_compute. lia.
  - vm_compute in Hfirst. inversion Hfirst. subst.
    apply Forall_forall. intros p Hp. symmetry. exact (Hall p Hp).
Defined.



Lemma custom_dropdown_only_after_native_error_witness :
  exists index choice r,
    In (mkEvent 678 (ExecuteAction "select_dropdown_option"
                       [("index", PInt index); ("value", PStr choice)])
                (Ret (PResult r)))
       (events (fill_field [] (mkField "color" "select" (Some "Favorite color"))
                  Scenario.color_page 1))
    /\ has_error r = true.
Proof.
  apply (custom_dropdown_only_after_native_error []
           (mkField "color" "select" (Some "Favorite color"))
           Scenario.color_page 1
           (mkEvent 397 GetCurrentPage (Ret (PPage "https://jobs.example/apply")))).
  - vm_compute. right. right. left. reflexivity.
  - reflexivity.
Defined.

Lemma fill_round_reads_state_per_field_witness :
  count_line 718
    (events (for_in [Scenario.hidden_field; Scenario.hidden_field]
               (fill_field []) Scenario.overlay_page 0)) = 2.
Proof.
  destruct (fill_round_reads_state_per_field []
              [Scenario.hidden_field; Scenario.hidden_field]
              Scenario.overlay_page 0) as [_ [H _]].
  apply H. vm_compute. reflexivity.
Defined.

Lemma text_field_gets_value_for_label_witness :
  Forall (eq "jane@x.com")
    (typed_texts
       (events (fill_field Cases.candidate
                  (mkField "email-1" "Text" (Some "Email"))
                  (Scenario.page_reading_back "jane@x.com") 0))).
Proof.
  apply (text_field_gets_value_for_label Cases.candidate
           (mkField "email-1" "Text" (Some "Email")) "jane@x.com"
           (Scenario.page_reading_back "jane@x.com") 0).
  - vm_compute. reflexivity.
  - vm_compute. reflexivity.
Defined.

Example email_field_is_typed_once :
  typed_texts
    (events (fill_field Cases.candidate
               (mkField "email-1" "Text" (Some "Email"))
               (Scenario.page_reading_back "jane@x.com") 0))
  = ["jane@x.com"].
Proof. vm_compute. reflexivity. Qed.

Example upload_falls_back_to_second_input :
  res (run (upload_resume_file Cases.candidate 9) Cases.upload_page)
  = Val (result_content "Resume successfully uploaded to file input 2")
  /\ map ev_line
       (events (run (upload_resume_file Cases.candidate 9) Cases.upload_page))
     = [336; 337; 342; 346; 367; 372; 372].
Proof. split; vm_compute; reflexivity. Qed.

Example third_locator_is_clicked :
  waited_selectors (events (run (scroll_approach "Yes") Cases.listbox_page))
  = firstn 3 (option_selectors "Yes")
  /\ map ev_line (events (run (scroll_approach "Yes") Cases.listbox_page))
     = [554; 568; 568; 568; 570].
Proof. split; vm_compute; reflexivity. Qed.


Lemma submit_clicks_first_candidate_witness :
  sevents (submit_if_found all_text Cases.smooth_session 4 (Some PObject))
  = [mkSessionEvent 814 (Core GetState) (Ret (PState Cases.finished_form));
     mkSessionEvent 820 (ControllerExecute "click_element" [("index", PInt 12)])
                    (Ret PObject)].
Proof.
  destruct (submit_clicks_first_candidate all_text Cases.smooth_session 4
              (Some PObject)) as [_ H].
  specialize (H Cases.finished_form eq_refl).
  assert (Hf : first_submit all_text Cases.finished_form
               = Some (12%Z, Cases.submit_button)) by (vm_compute; reflexivity).
  rewrite Hf in H. destruct H as [H _]. exact H.
Defined.

Example smooth_run_closes_both :
  map sev_line
    (sevents (run_job_application all_text "https://jobs.example/apply"
                Cases.candidate Cases.smooth_session 0 None))
  = [742; 798; 808; 611; 814; 820; 837; 839]
  /\ sres (run_job_application all_text "https://jobs.example/apply"
             Cases.candidate Cases.smooth_session 0 None) = Val tt.
Proof. split; vm_compute; reflexivity. Qed.

Lemma run_closes_what_it_opened_witness :
  run_job_application all_text "https://jobs.example/apply" Cases.candidate
    (fun _ _ => Raise "Executable doesn't exist") 0 None
  = mkSOut (Exc "Executable doesn't exist") None
      [mkSessionEvent 742 NewBrowser (Raise "Executable doesn't exist")] [].
Proof.
  exact (run_closes_what_it_opened all_text "https://jobs.example/apply"
           Cases.candidate (fun _ _ => Raise "Executable doesn't exist") 0 None).
Defined.
